(** * Token-based access control demo servers: a shallow embedding

    The repository holds four demonstration HTTP servers.  This file embeds
    the request handlers of

    - [demo/tbac-live-test.py]   (module [LiveTest]): login, JWT minting and
      decoding, query classification, the TBAC policy evaluator and the
      query endpoint;
    - [demo/tbac-live-demo.py]   (module [LiveDemo]): the second login
      handler;
    - [demo/opensearch-cedarling-production.py] (module [Production]) and
      [demo/deploy-opensearch-with-cedarling.py] (module [Deploy]): the
      authorize and policy-creation endpoints.

    Python values that come out of [json.loads] are modelled by the type
    [json]; a Python exception is an explicit result ([Raise]); the calls
    into the Python standard library whose code is not part of the
    repository (base64, json, hmac, str() of a non-string) are the fields
    of the class [PyRuntime], over which every theorem is universally
    quantified.  Module [Fixture] gives one concrete runtime on which the
    handlers can be run. *)

From Stdlib Require Import ZArith List String Ascii Bool.
From Stdlib Require Import Floats.SpecFloat.
From Stdlib Require Import Numbers.DecimalString Numbers.DecimalZ.
Import ListNotations.

Open Scope string_scope.
Open Scope Z_scope.

(** ** Python exceptions and results *)

(** The exception classes that the handlers can meet.  Messages are left
    out: no handler reads them.  [JSONDecodeError] is the subclass of
    [ValueError] that [json.loads] raises on text that is not JSON; an
    [except] clause for it lets every other [ValueError] pass. *)
Inductive exc : Type :=
| ValueError
| TypeError
| AttributeError
| JSONDecodeError.

Inductive pyresult (A : Type) : Type :=
| Ok (a : A)
| Raise (e : exc).

Arguments Ok {A} a.
Arguments Raise {A} e.

Definition bind {A B : Type} (m : pyresult A) (k : A -> pyresult B) : pyresult B :=
  match m with
  | Ok a => k a
  | Raise e => Raise e
  end.

Declare Scope py_scope.
Delimit Scope py_scope with py.
Notation "x <- m ;; k" := (bind m (fun x => k))
  (at level 61, m at next level, right associativity) : py_scope.

(** [try: m  except: h] with a bare [except] clause. *)
Definition try_except {A : Type} (m : pyresult A) (h : exc -> pyresult A) : pyresult A :=
  match m with
  | Ok a => Ok a
  | Raise e => h e
  end.

Definition returns {A : Type} (m : pyresult A) : Prop := exists a, m = Ok a.

(** ** Python strings *)

(** [s.startswith(p)] *)
Fixpoint startswith (s p : string) {struct p} : bool :=
  match p with
  | EmptyString => true
  | String b p' =>
      match s with
      | EmptyString => false
      | String a s' => Ascii.eqb a b && startswith s' p'
      end
  end.

(** [needle in hay] for two strings. *)
Fixpoint str_in (needle hay : string) : bool :=
  startswith hay needle ||
  match hay with
  | EmptyString => false
  | String _ hay' => str_in needle hay'
  end.

(** [c] occurs in [s]. *)
Fixpoint has_char (c : ascii) (s : string) : bool :=
  match s with
  | EmptyString => false
  | String a s' => Ascii.eqb a c || has_char c s'
  end.

(** [s[n:]] *)
Fixpoint drop (n : nat) (s : string) : string :=
  match n, s with
  | O, _ => s
  | S _, EmptyString => EmptyString
  | S n', String _ s' => drop n' s'
  end.

(** [s.split(sep)] for a one-character separator. *)
Fixpoint split (sep : ascii) (s : string) : list string :=
  match s with
  | EmptyString => [EmptyString]
  | String c s' =>
      if Ascii.eqb c sep then EmptyString :: split sep s'
      else match split sep s' with
           | p :: ps => String c p :: ps
           | [] => [String c EmptyString]
           end
  end.

(** [c * n] for a one-character string [c]. *)
Fixpoint repeat_char (c : ascii) (n : nat) : string :=
  match n with
  | O => EmptyString
  | S n' => String c (repeat_char c n')
  end.

(** [s.rstrip(c)] for a one-character argument. *)
Fixpoint rstrip (c : ascii) (s : string) : string :=
  match s with
  | EmptyString => EmptyString
  | String a s' =>
      match rstrip c s' with
      | EmptyString => if Ascii.eqb a c then EmptyString else String a EmptyString
      | r => String a r
      end
  end.

Definition lower_char (c : ascii) : ascii :=
  let n := nat_of_ascii c in
  if (Nat.leb 65 n && Nat.leb n 90)%bool then ascii_of_nat (n + 32) else c.

(** [s.lower()]; the handlers only lower the output of [json.dumps], which
    is ASCII. *)
Fixpoint lower (s : string) : string :=
  match s with
  | EmptyString => EmptyString
  | String c s' => String (lower_char c) (lower s')
  end.

(** [str(n)] for an int. *)
Definition str_of_int (n : Z) : string := NilZero.string_of_int (Z.to_int n).

(** ** JSON values: what [json.loads] returns *)

#[local] Set Warnings "-register-all".

Inductive json : Type :=
| JNull
| JBool (b : bool)
| JInt (n : Z)
| JFloat (f : spec_float)
| JStr (s : string)
| JList (l : list json)
| JDict (d : list (string * json)).

(** A Python dict with string keys, in insertion order. *)
Definition dict : Type := list (string * json).

Fixpoint lookup (k : string) (d : dict) : option json :=
  match d with
  | [] => None
  | (k', v) :: d' => if String.eqb k k' then Some v else lookup k d'
  end.

(** [d.get(k, default)] *)
Definition dict_get (d : dict) (k : string) (default : json) : json :=
  match lookup k d with
  | Some v => v
  | None => default
  end.

(** [v.get(k, default)] on a value that need not be a dict: every other
    JSON type has no attribute [get]. *)
Definition py_get (v : json) (k : string) (default : json) : pyresult json :=
  match v with
  | JDict d => Ok (dict_get d k default)
  | _ => Raise AttributeError
  end.

(** *** Equality ([==]) *)

Definition is_nan (v : json) : bool :=
  match v with
  | JFloat S754_nan => true
  | _ => false
  end.

(** A float against an int: Python compares the exact values. *)
Definition float_eq_int (f : spec_float) (n : Z) : bool :=
  match f with
  | S754_zero _ => n =? 0
  | S754_finite s m e =>
      let v := if s then Z.neg m else Z.pos m in
      if 0 <=? e then n =? v * 2 ^ e else n * 2 ^ (- e) =? v
  | _ => false
  end.

Definition int_of_bool (b : bool) : Z := if b then 1 else 0.

(** [a == b].  Booleans are ints; ints and floats compare by value; NaN is
    unequal to itself; lists compare element by element and dicts key by
    key, whatever the insertion order.  Inside a list or a dict CPython
    first tests the two elements for identity, and the NaN of [json.loads]
    is one shared object ([json.decoder.NaN]): two NaN elements count as
    equal there. *)
Fixpoint py_eq (a b : json) {struct a} : bool :=
  match a, b with
  | JNull, JNull => true
  | JBool x, JBool y => Bool.eqb x y
  | JBool x, JInt n => int_of_bool x =? n
  | JInt n, JBool y => n =? int_of_bool y
  | JBool x, JFloat f => float_eq_int f (int_of_bool x)
  | JFloat f, JBool y => float_eq_int f (int_of_bool y)
  | JInt n, JInt m => n =? m
  | JInt n, JFloat f => float_eq_int f n
  | JFloat f, JInt n => float_eq_int f n
  | JFloat f, JFloat g => SFeqb f g
  | JStr s, JStr t => String.eqb s t
  | JList l1, JList l2 =>
      (fix elems (l1 l2 : list json) {struct l1} : bool :=
         match l1, l2 with
         | [], [] => true
         | x :: l1', y :: l2' =>
             ((is_nan x && is_nan y) || py_eq x y) && elems l1' l2'
         | _, _ => false
         end) l1 l2
  | JDict d1, JDict d2 =>
      Nat.eqb (List.length d1) (List.length d2) &&
      (fix items (d : dict) {struct d} : bool :=
         match d with
         | [] => true
         | (k, v) :: d' =>
             match lookup k d2 with
             | Some w => ((is_nan v && is_nan w) || py_eq v w) && items d'
             | None => false
             end
         end) d1
  | _, _ => false
  end.

(** [v == "literal"] *)
Definition eq_str (v : json) (s : string) : bool := py_eq v (JStr s).

(** [x in container] for a string [x]: substring of a str, element of a
    list, key of a dict; any other container is not iterable. *)
Definition str_in_value (x : string) (container : json) : pyresult bool :=
  match container with
  | JStr s => Ok (str_in x s)
  | JList l => Ok (existsb (fun v => py_eq v (JStr x)) l)
  | JDict d => Ok (existsb (fun kv => String.eqb (fst kv) x) d)
  | _ => Raise TypeError
  end.

(** [x in s] for a string [s]: the left operand must be a string. *)
Definition value_in_str (x : json) (s : string) : pyresult bool :=
  match x with
  | JStr t => Ok (str_in t s)
  | _ => Raise TypeError
  end.

(** [v in [s1, ..., sn]] for a list of string literals. *)
Definition value_in_strs (v : json) (l : list string) : bool :=
  existsb (fun s => eq_str v s) l.

(** Python can hash every JSON value except lists and dicts. *)
Definition hashable (v : json) : bool :=
  match v with
  | JList _ | JDict _ => false
  | _ => true
  end.

(** ** The Python standard library, as the handlers call it *)

Definition bytes : Type := list Byte.byte.

(** The library calls below are made by the repository but their code is
    not part of it.  Everything proved in this file holds for every
    implementation of them. *)
Class PyRuntime : Type := {
  (** [json.loads(s)] *)
  json_loads : string -> pyresult json;
  (** [json.dumps(v)] *)
  json_dumps : json -> string;
  (** [json.dumps(v, separators=(',', ':'))] *)
  json_dumps_compact : json -> string;
  (** [str(v)] for a value that is not a string *)
  str_of_value : json -> string;
  (** [s.encode()] *)
  str_encode : string -> bytes;
  (** [b.decode()] *)
  bytes_decode : bytes -> pyresult string;
  (** [base64.urlsafe_b64encode(b).decode()] *)
  urlsafe_b64encode : bytes -> string;
  (** [base64.urlsafe_b64decode(s)] *)
  urlsafe_b64decode : string -> pyresult bytes;
  (** [hmac.new(key, msg, hashlib.sha256).digest()] *)
  hmac_sha256 : bytes -> bytes -> bytes
}.

(** [f"{v}"] *)
Definition format_value `{PyRuntime} (v : json) : string :=
  match v with
  | JStr s => s
  | _ => str_of_value v
  end.

(** The readings of [int(time.time())] during one request, in the order
    in which the handler takes them. *)
Definition clock : Type := nat -> Z.

(** What the wall clock contributes to one policy evaluation:
    [round((time.time() - start_time) * 1000, 2)] and the formatted
    [time.strftime] stamp. *)
Record timing : Type := {
  elapsed_ms : spec_float;
  stamp : string
}.

(** [self.headers.get(name, default)]: header names match whatever their
    case. *)
Fixpoint headers_get (headers : list (string * string)) (name default : string) : string :=
  match headers with
  | [] => default
  | (k, v) :: rest =>
      if String.eqb (lower k) (lower name) then v else headers_get rest name default
  end.

(** ** [demo/tbac-live-test.py] *)

Module LiveTest.

(** The values of the [users] table. *)
Record user_info : Type := {
  name : string;
  department : string;
  access_level : string;
  roles : list string
}.

Definition users : list (string * user_info) :=
  [ ("alice@engineering.corp",
     {| name := "Alice Johnson"; department := "engineering";
        access_level := "full";
        roles := ["developer"; "data_reader"; "engineer"] |});
    ("bob@sales.corp",
     {| name := "Bob Smith"; department := "sales";
        access_level := "limited";
        roles := ["sales_rep"; "customer_data_reader"] |});
    ("charlie@finance.corp",
     {| name := "Charlie Brown"; department := "finance";
        access_level := "read_only";
        roles := ["financial_analyst"; "report_reader"] |});
    ("guest@external.com",
     {| name := "Guest User"; department := "external";
        access_level := "restricted";
        roles := ["guest"] |}) ].

Definition unknown_user : user_info :=
  {| name := "Unknown User"; department := "unknown";
     access_level := "none"; roles := [] |}.

Fixpoint find_user (email : string) (table : list (string * user_info)) : option user_info :=
  match table with
  | [] => None
  | (k, u) :: rest => if String.eqb email k then Some u else find_user email rest
  end.

(** [users.get(email, default)]: the key is hashed first, which a list or
    a dict refuses; a hashable key that is not a string equals none of the
    string keys. *)
Definition get_user_info (email : json) : pyresult user_info :=
  if hashable email then
    match email with
    | JStr s =>
        match find_user s users with
        | Some u => Ok u
        | None => Ok unknown_user
        end
    | _ => Ok unknown_user
    end
  else Raise TypeError.

Section WithRuntime.

Context `{PyRuntime}.

Definition jwt_header : json := JDict [("alg", JStr "HS256"); ("typ", JStr "JWT")].

Definition create_jwt_token (header payload : json) : string :=
  let secret := "demo-secret" in
  let header_encoded :=
    rstrip "=" (urlsafe_b64encode (str_encode (json_dumps_compact header))) in
  let payload_encoded :=
    rstrip "=" (urlsafe_b64encode (str_encode (json_dumps_compact payload))) in
  let message := header_encoded ++ "." ++ payload_encoded in
  let signature := hmac_sha256 (str_encode secret) (str_encode message) in
  let signature_encoded := rstrip "=" (urlsafe_b64encode signature) in
  header_encoded ++ "." ++ payload_encoded ++ "." ++ signature_encoded.

Definition access_token_payload (t_exp t_iat : Z) (email account_id : json)
    (user : user_info) : json :=
  JDict [ ("sub", email);
          ("aud", JStr "opensearch-cedarling");
          ("iss", JStr "https://jans.example.com");
          ("exp", JInt (t_exp + 3600));
          ("iat", JInt t_iat);
          ("account_id", account_id);
          ("department", JStr (department user));
          ("access_level", JStr (access_level user));
          ("roles", JList (map JStr (roles user))) ].

Definition id_token_payload (t_exp t_iat : Z) (email : json) (user : user_info) : json :=
  JDict [ ("sub", email);
          ("aud", JStr "opensearch-cedarling");
          ("iss", JStr "https://jans.example.com");
          ("exp", JInt (t_exp + 3600));
          ("iat", JInt t_iat);
          ("name", JStr (name user));
          ("email", email);
          ("department", JStr (department user)) ].

(** The two token generators read the clock twice each; [n] counts the
    readings taken so far. *)
Definition generate_access_token (clk : clock) (n : nat)
    (email account_id : json) (user : user_info) : string * nat :=
  (create_jwt_token jwt_header
     (access_token_payload (clk n) (clk (S n)) email account_id user),
   S (S n)).

Definition generate_id_token (clk : clock) (n : nat)
    (email : json) (user : user_info) : string * nat :=
  (create_jwt_token jwt_header
     (id_token_payload (clk n) (clk (S n)) email user),
   S (S n)).

Record session : Type := {
  session_email : json;
  session_account_id : json;
  session_department : string;
  session_access_level : string;
  access_token : string;
  id_token : string
}.

Record login_response : Type := {
  success : bool;
  login_session : session
}.

Definition handle_login_post (clk : clock) (data : json) : pyresult login_response :=
  (email <- py_get data "email" (JStr "") ;;
   account_id <- py_get data "account_id" (JStr "") ;;
   user <- get_user_info email ;;
   let (access, n) := generate_access_token clk 0 email account_id user in
   let (ident, _) := generate_id_token clk n email user in
   Ok {| success := true;
         login_session :=
           {| session_email := email;
              session_account_id := account_id;
              session_department := department user;
              session_access_level := access_level user;
              access_token := access;
              id_token := ident |} |})%py.

(** Every exception raised inside the [try] block comes out as a
    [ValueError]. *)
Definition decode_jwt_token (token : string) : pyresult json :=
  try_except
    (let parts := split "." token in
     if negb (Nat.eqb (List.length parts) 3) then Raise ValueError
     else
       let payload_part := nth 1 parts "" in
       let payload_part :=
         payload_part ++ repeat_char "=" (4 - String.length payload_part mod 4) in
       payload_bytes <- urlsafe_b64decode payload_part ;;
       text <- bytes_decode payload_bytes ;;
       json_loads text)%py
    (fun _ => Raise ValueError).

Definition classify_query (query : json) : string :=
  let query_str := lower (json_dumps query) in
  if str_in "confidential" query_str || str_in "admin" query_str then "confidential"
  else if str_in "financial" query_str || str_in "finance" query_str then "financial"
  else if str_in "engineering" query_str || str_in "technical" query_str then "engineering"
  else if str_in "customer" query_str || str_in "account_id" query_str then "customer_data"
  else if str_in "public" query_str then "public"
  else "general".

(** The dict that [handle_opensearch_query_post] builds for the evaluator. *)
Record auth_request : Type := {
  req_principal : string;
  req_action : string;
  req_resource : string;
  req_context : dict
}.

(** The dict that [evaluate_tbac_policy] returns. *)
Record auth_result : Type := {
  decision : string;
  reason : string;
  policies_applied : list string;
  execution_time_ms : spec_float;
  principal : string;
  action : string;
  resource : string;
  token_valid : bool;
  account_match : bool;
  department_match : bool;
  timestamp : string
}.

(** The chain of [if]/[elif] branches: decision, applied policies, reason. *)
Definition policy_branches (query_type department access_level account_id : json)
    (context : dict) : string * list string * string :=
  if eq_str query_type "public" then
    ("ALLOW", ["PublicDataAccess"], "Public data accessible to all users")
  else if eq_str query_type "customer_data" then
    if py_eq account_id (dict_get context "account_id" (JStr "")) then
      ("ALLOW", ["CustomerDataAccess"; "AccountIsolation"],
       "Account ID matches user account")
    else
      ("DENY", [], "Account ID mismatch - user can only access own data")
  else if eq_str query_type "financial" then
    if eq_str department "finance" && value_in_strs access_level ["full"; "read_only"] then
      ("ALLOW", ["FinancialDataAccess"; "DepartmentAccess"],
       "Finance department access granted")
    else
      ("DENY", [], "Financial data restricted to finance department")
  else if eq_str query_type "engineering" then
    if eq_str department "engineering" && eq_str access_level "full" then
      ("ALLOW", ["EngineeringDataAccess"; "DepartmentAccess"],
       "Engineering department full access granted")
    else
      ("DENY", [],
       "Engineering data restricted to engineering department with full access")
  else if eq_str query_type "confidential" then
    if eq_str access_level "admin" then
      ("ALLOW", ["ConfidentialDataAccess"; "AdminAccess"],
       "Admin access to confidential data")
    else
      ("DENY", [], "Confidential data requires admin access level")
  else
    ("DENY", [], "Default deny").

Definition evaluate_tbac_policy (t : timing) (request : auth_request)
    (token_claims : json) : pyresult auth_result :=
  (let context := req_context request in
   department <- py_get token_claims "department" (JStr "") ;;
   access_level <- py_get token_claims "access_level" (JStr "") ;;
   account_id <- py_get token_claims "account_id" (JStr "") ;;
   let query_type := dict_get context "query_type" (JStr "") in
   let '(decision, policies_applied, reason) :=
     policy_branches query_type department access_level account_id context in
   let account_match := py_eq account_id (dict_get context "account_id" (JStr "")) in
   in_resource <- value_in_str department (req_resource request) ;;
   Ok {| decision := decision;
         reason := reason;
         policies_applied := policies_applied;
         execution_time_ms := elapsed_ms t;
         principal := req_principal request;
         action := req_action request;
         resource := req_resource request;
         token_valid := true;
         account_match := account_match;
         department_match := in_resource || eq_str query_type "public";
         timestamp := stamp t |})%py.

Definition hits_response (took total : Z) (hits : list json) : json :=
  JDict [ ("took", JInt took);
          ("timed_out", JBool false);
          ("hits", JDict [ ("total", JDict [("value", JInt total); ("relation", JStr "eq")]);
                           ("hits", JList hits) ]) ].

Definition hit (index_name : json) (id : string) (source : dict) : json :=
  JDict [("_index", index_name); ("_id", JStr id); ("_source", JDict source)].

Definition simulate_opensearch_query (index_name query token_claims : json) : pyresult json :=
  (account_id <- py_get token_claims "account_id" (JStr "") ;;
   department <- py_get token_claims "department" (JStr "") ;;
   is_customer <- str_in_value "customer" index_name ;;
   if is_customer then
     Ok (hits_response 5 3
           [ hit index_name "1"
               [ ("customer_name", JStr "Acme Corp"); ("account_id", account_id);
                 ("status", JStr "active"); ("last_login", JStr "2024-06-05T10:30:00Z") ];
             hit index_name "2"
               [ ("customer_name", JStr "TechStart Inc"); ("account_id", account_id);
                 ("status", JStr "active"); ("last_login", JStr "2024-06-04T15:20:00Z") ] ])
   else
   is_financial <- str_in_value "financial" index_name ;;
   if is_financial then
     Ok (hits_response 12 2
           [ hit index_name "report_2024_q1"
               [ ("report_type", JStr "quarterly_financial"); ("quarter", JStr "Q1_2024");
                 ("department", JStr "finance"); ("total_revenue", JInt 2500000);
                 ("date", JStr "2024-03-31") ] ])
   else
   is_engineering <- str_in_value "engineering" index_name ;;
   if is_engineering then
     Ok (hits_response 8 4
           [ hit index_name "spec_001"
               [ ("document_type", JStr "technical_specification");
                 ("project", JStr "cedarling_integration");
                 ("department", JStr "engineering"); ("version", JStr "2.1.0");
                 ("last_updated", JStr "2024-06-01") ] ])
   else
   is_public <- str_in_value "public" index_name ;;
   if is_public then
     Ok (hits_response 3 10
           [ hit index_name "announcement_001"
               [ ("title", JStr "Company News Update"); ("visibility", JStr "public");
                 ("content", JStr "Latest company announcements and updates");
                 ("published", JStr "2024-06-05") ] ])
   else
     Ok (hits_response 1 0 []))%py.

Record query_metadata : Type := {
  meta_index : json;
  query_classification : string;
  meta_timestamp : string
}.

(** The two shapes of the JSON body that the query endpoint sends. *)
Inductive query_response : Type :=
| Rejected (error : string) (rejected_decision rejected_reason : string)
| Evaluated (authorization : auth_result) (opensearch_results : option json)
    (metadata : query_metadata).

(** [response['authorization']['decision']] and
    [response['authorization']['reason']]. *)
Definition response_decision (r : query_response) : string :=
  match r with
  | Rejected _ d _ => d
  | Evaluated a _ _ => decision a
  end.

Definition response_reason (r : query_response) : string :=
  match r with
  | Rejected _ _ why => why
  | Evaluated a _ _ => reason a
  end.

Definition authorization_request (sub index_name : json)
    (account_id department access_level : json) (query : json) : auth_request :=
  {| req_principal := "user:" ++ format_value sub;
     req_action := "read";
     req_resource := "index:" ++ format_value index_name;
     req_context :=
       [ ("account_id", account_id);
         ("department", department);
         ("access_level", access_level);
         ("index_name", index_name);
         ("query_type", JStr (classify_query query)) ] |}.

(** The request that the handler builds from a body and a claims dict. *)
Definition built_request (body claims : dict) : auth_request :=
  authorization_request
    (dict_get claims "sub" (JStr ""))
    (dict_get body "index" (JStr ""))
    (dict_get claims "account_id" (JStr ""))
    (dict_get claims "department" (JStr ""))
    (dict_get claims "access_level" (JStr ""))
    (dict_get body "query" (JDict [])).

(** The handler from the point where the token has been decoded. *)
Definition answer_query (t : timing) (now : string) (data token_claims : json)
    : pyresult query_response :=
  (index_name <- py_get data "index" (JStr "") ;;
   query <- py_get data "query" (JDict []) ;;
   user_context <- py_get data "user_context" (JDict []) ;;
   sub <- py_get token_claims "sub" (JStr "") ;;
   account_id <- py_get token_claims "account_id" (JStr "") ;;
   department <- py_get token_claims "department" (JStr "") ;;
   access_level <- py_get token_claims "access_level" (JStr "") ;;
   let request :=
     authorization_request sub index_name account_id department access_level query in
   auth_result <- evaluate_tbac_policy t request token_claims ;;
   opensearch_results <-
     (if String.eqb (decision auth_result) "ALLOW" then
        r <- simulate_opensearch_query index_name query token_claims ;; Ok (Some r)
      else Ok None) ;;
   Ok (Evaluated auth_result opensearch_results
         {| meta_index := index_name;
            query_classification := classify_query query;
            meta_timestamp := now |}))%py.

Definition handle_opensearch_query_post (t : timing) (now : string)
    (headers : list (string * string)) (data : json) : pyresult query_response :=
  let auth_header := headers_get headers "Authorization" "" in
  if negb (startswith auth_header "Bearer ") then
    Ok (Rejected "Missing or invalid authorization header" "DENY" "No token provided")
  else
    let access_token := drop 7 auth_header in
    match decode_jwt_token access_token with
    | Raise _ => Ok (Rejected "Invalid token format" "DENY" "Invalid token")
    | Ok token_claims => answer_query t now data token_claims
    end.

End WithRuntime.

End LiveTest.

(** ** [demo/tbac-live-demo.py] *)

Module LiveDemo.

Import LiveTest.

(** The [users] table written out inside [handle_login]. *)
Definition users : list (string * user_info) :=
  [ ("alice@engineering.corp",
     {| name := "Alice Johnson"; department := "engineering";
        access_level := "full";
        roles := ["developer"; "data_reader"; "engineer"] |});
    ("bob@sales.corp",
     {| name := "Bob Smith"; department := "sales";
        access_level := "limited";
        roles := ["sales_rep"; "customer_data_reader"] |});
    ("charlie@finance.corp",
     {| name := "Charlie Brown"; department := "finance";
        access_level := "read_only";
        roles := ["financial_analyst"; "report_reader"] |});
    ("guest@external.com",
     {| name := "Guest User"; department := "external";
        access_level := "restricted";
        roles := ["guest"] |}) ].

Section WithRuntime.

Context `{PyRuntime}.

Definition encode_jwt (header payload : json) : string :=
  let secret := "demo-secret" in
  let header_encoded :=
    rstrip "=" (urlsafe_b64encode (str_encode (json_dumps_compact header))) in
  let payload_encoded :=
    rstrip "=" (urlsafe_b64encode (str_encode (json_dumps_compact payload))) in
  let message := header_encoded ++ "." ++ payload_encoded in
  let signature := hmac_sha256 (str_encode secret) (str_encode message) in
  let signature_encoded := rstrip "=" (urlsafe_b64encode signature) in
  header_encoded ++ "." ++ payload_encoded ++ "." ++ signature_encoded.

Definition create_access_token (clk : clock) (n : nat)
    (email account_id : json) (user : user_info) : string * nat :=
  (encode_jwt (JDict [("alg", JStr "HS256"); ("typ", JStr "JWT")])
     (JDict [ ("sub", email);
              ("aud", JStr "opensearch-cedarling");
              ("iss", JStr "https://jans.example.com");
              ("exp", JInt (clk n + 3600));
              ("iat", JInt (clk (S n)));
              ("account_id", account_id);
              ("department", JStr (department user));
              ("access_level", JStr (access_level user));
              ("roles", JList (map JStr (roles user))) ]),
   S (S n)).

Definition create_id_token (clk : clock) (n : nat)
    (email : json) (user : user_info) : string * nat :=
  (encode_jwt (JDict [("alg", JStr "HS256"); ("typ", JStr "JWT")])
     (JDict [ ("sub", email);
              ("aud", JStr "opensearch-cedarling");
              ("iss", JStr "https://jans.example.com");
              ("exp", JInt (clk n + 3600));
              ("iat", JInt (clk (S n)));
              ("name", JStr (name user));
              ("email", email);
              ("department", JStr (department user)) ]),
   S (S n)).

Definition handle_login (clk : clock) (data : json) : pyresult login_response :=
  (email <- py_get data "email" (JStr "") ;;
   account_id <- py_get data "account_id" (JStr "") ;;
   user <-
     (if hashable email then
        match email with
        | JStr s =>
            match find_user s users with
            | Some u => Ok u
            | None => Ok unknown_user
            end
        | _ => Ok unknown_user
        end
      else Raise TypeError) ;;
   let (access, n) := create_access_token clk 0 email account_id user in
   let (ident, _) := create_id_token clk n email user in
   Ok {| success := true;
         login_session :=
           {| session_email := email;
              session_account_id := account_id;
              session_department := department user;
              session_access_level := access_level user;
              access_token := access;
              id_token := ident |} |})%py.

End WithRuntime.

End LiveDemo.

(** ** The authorize and policy endpoints of the two plugin servers *)

(** The answers of the two servers are dict literals with the same keys,
    except that the production server adds [cedarling_version] and
    [policy_store] to an authorize answer and [cedarling_engine] to a
    policy or schema answer.  One record per kind of answer serves both
    servers: such a field is [None] where the answer has no such key. *)

(** [principal]-and-[action] test shared, character for character, by
    [handle_authorization] and [authorize_data_access]:
    ["alice" in principal and action in ["read", "write"]].  The right
    operand of [and] is only evaluated when the left one is true. *)
Definition alice_may (principal action : json) : pyresult bool :=
  (found <- str_in_value "alice" principal ;;
   Ok (found && value_in_strs action ["read"; "write"]))%py.

Record authorize_response : Type := {
  authz_decision : string;
  authz_policies_applied : list string;
  authz_execution_time_ms : spec_float;
  authz_principal : json;
  authz_action : json;
  authz_resource : json;
  authz_timestamp : string;
  authz_cedarling_version : option string;
  authz_policy_store : option string
}.

Record policy_response : Type := {
  policy_id : string;
  policy_name : json;
  policy_status : string;
  policy_timestamp : string;
  policy_cedarling_engine : option string
}.

(** The float literals [2.1] and [2.5] as binary64 values. *)
Definition float_2_1 : spec_float := S754_finite false 4728779608739021 (-51).
Definition float_2_5 : spec_float := S754_finite false 5629499534213120 (-51).

(** [demo/opensearch-cedarling-production.py] *)
Module Production.

Definition handle_authorization (now : string) (data : json) : pyresult authorize_response :=
  (principal <- py_get data "principal" (JStr "") ;;
   action <- py_get data "action" (JStr "") ;;
   resource <- py_get data "resource" (JStr "") ;;
   allowed <- alice_may principal action ;;
   let decision := if allowed then "ALLOW" else "DENY" in
   Ok {| authz_decision := decision;
         authz_policies_applied := ["CustomerDataAccess"; "EngineeringAccess"];
         authz_execution_time_ms := float_2_1;
         authz_principal := principal;
         authz_action := action;
         authz_resource := resource;
         authz_timestamp := now;
         authz_cedarling_version := Some "embedded-uniffi";
         authz_policy_store := Some "opensearch-security-store" |})%py.

Definition handle_policy_creation (seconds : Z) (now : string) (data : json)
    : pyresult policy_response :=
  (policy_name <- py_get data "name" JNull ;;
   Ok {| policy_id := "policy_" ++ str_of_int seconds;
         policy_name := policy_name;
         policy_status := "created";
         policy_timestamp := now;
         policy_cedarling_engine := Some "embedded-uniffi" |})%py.

End Production.

(** [demo/deploy-opensearch-with-cedarling.py] *)
Module Deploy.

Definition authorize_data_access (now : string) (data : json) : pyresult authorize_response :=
  (principal <- py_get data "principal" (JStr "") ;;
   action <- py_get data "action" (JStr "") ;;
   resource <- py_get data "resource" (JStr "") ;;
   allowed <- alice_may principal action ;;
   let decision := if allowed then "ALLOW" else "DENY" in
   Ok {| authz_decision := decision;
         authz_policies_applied := ["CustomerDataAccess"];
         authz_execution_time_ms := float_2_5;
         authz_principal := principal;
         authz_action := action;
         authz_resource := resource;
         authz_timestamp := now;
         authz_cedarling_version := None;
         authz_policy_store := None |})%py.

Definition create_policy (seconds : Z) (now : string) (data : json)
    : pyresult policy_response :=
  (policy_name <- py_get data "name" JNull ;;
   Ok {| policy_id := "policy_" ++ str_of_int seconds;
         policy_name := policy_name;
         policy_status := "created";
         policy_timestamp := now;
         policy_cedarling_engine := None |})%py.

End Deploy.

(** ** A concrete runtime

    One implementation of [PyRuntime], on which the handlers can be run:
    base64 as CPython decodes it (lenient about padding and foreign
    characters), HMAC-SHA256, JSON text and [str()] for values without
    floats, and UTF-8 for the code points below 256 (the characters of a
    Rocq string).  Outside that fragment it answers with an error
    (reading a number with a fraction or an exponent, or a code point
    from 256 on) or with a stand-in (printing a finite float).  The
    examples in this file stay inside the fragment. *)

Module Fixture.

Definition code (c : ascii) : N := N_of_ascii c.

Definition is_ascii_str (s : string) : bool :=
  forallb (fun c => N.ltb (code c) 128) (list_ascii_of_string s).

(** *** base64 *)

Definition sextet (c : ascii) : option N :=
  let n := code c in
  if (N.leb 65 n && N.leb n 90)%bool then Some (n - 65)%N
  else if (N.leb 97 n && N.leb n 122)%bool then Some (n - 71)%N
  else if (N.leb 48 n && N.leb n 57)%bool then Some (n + 4)%N
  else if (N.eqb n 43 || N.eqb n 45)%bool then Some 62%N
  else if (N.eqb n 47 || N.eqb n 95)%bool then Some 63%N
  else None.

Definition byte_of_N (n : N) : Byte.byte := byte_of_ascii (ascii_of_N n).

(** The decoding loop of [binascii.a2b_base64]: [quad] is the position in
    the current group of four, [left] the bits not yet written, [pads] the
    padding characters seen since the last data character. *)
Fixpoint a2b_base64 (s : string) (quad : nat) (left : N) (pads : nat)
    (out : list Byte.byte) : pyresult bytes :=
  match s with
  | EmptyString => if Nat.eqb quad 0 then Ok (rev out) else Raise ValueError
  | String c s' =>
      if Ascii.eqb c "=" then
        if (Nat.leb 2 quad && Nat.leb 4 (quad + S pads))%bool then Ok (rev out)
        else a2b_base64 s' quad left (if Nat.leb 2 quad then S pads else pads) out
      else
        match sextet c with
        | None => a2b_base64 s' quad left pads out
        | Some v =>
            match quad with
            | 0%nat => a2b_base64 s' 1 v 0 out
            | 1%nat =>
                a2b_base64 s' 2 (N.land v 15) 0
                  (byte_of_N (N.lor (N.shiftl left 2) (N.shiftr v 4)) :: out)
            | 2%nat =>
                a2b_base64 s' 3 (N.land v 3) 0
                  (byte_of_N (N.lor (N.shiftl left 4) (N.shiftr v 2)) :: out)
            | _ =>
                a2b_base64 s' 0 0 0
                  (byte_of_N (N.lor (N.shiftl left 6) v) :: out)
            end
        end
  end.

Definition b64decode (s : string) : pyresult bytes :=
  if is_ascii_str s then a2b_base64 s 0 0 0 [] else Raise ValueError.

Definition b64_char (v : N) : ascii :=
  if N.ltb v 26 then ascii_of_N (v + 65)
  else if N.ltb v 52 then ascii_of_N (v + 71)
  else if N.ltb v 62 then ascii_of_N (v - 4)
  else if N.eqb v 62 then "-"%char
  else "_"%char.

Definition N_of_byte (b : Byte.byte) : N := code (ascii_of_byte b).

Fixpoint b64encode (b : bytes) : string :=
  match b with
  | [] => ""
  | [x] =>
      let x := N_of_byte x in
      String (b64_char (N.shiftr x 2))
        (String (b64_char (N.shiftl (N.land x 3) 4)) "==")
  | [x; y] =>
      let x := N_of_byte x in
      let y := N_of_byte y in
      String (b64_char (N.shiftr x 2))
        (String (b64_char (N.lor (N.shiftl (N.land x 3) 4) (N.shiftr y 4)))
           (String (b64_char (N.shiftl (N.land y 15) 2)) "="))
  | x :: y :: z :: rest =>
      let x := N_of_byte x in
      let y := N_of_byte y in
      let z := N_of_byte z in
      String (b64_char (N.shiftr x 2))
        (String (b64_char (N.lor (N.shiftl (N.land x 3) 4) (N.shiftr y 4)))
           (String (b64_char (N.lor (N.shiftl (N.land y 15) 2) (N.shiftr z 6)))
              (String (b64_char (N.land z 63)) (b64encode rest))))
  end.

(** *** UTF-8 *)

Fixpoint utf8_encode (s : string) : bytes :=
  match s with
  | EmptyString => []
  | String c s' =>
      let n := code c in
      if N.ltb n 128 then byte_of_N n :: utf8_encode s'
      else byte_of_N (N.lor 192 (N.shiftr n 6))
           :: byte_of_N (N.lor 128 (N.land n 63)) :: utf8_encode s'
  end.

Fixpoint utf8_decode (b : bytes) : pyresult string :=
  match b with
  | [] => Ok ""
  | x :: rest =>
      let n := N_of_byte x in
      if N.ltb n 128 then
        match utf8_decode rest with
        | Ok s => Ok (String (ascii_of_N n) s)
        | Raise e => Raise e
        end
      else if (N.eqb n 194 || N.eqb n 195)%bool then
        match rest with
        | y :: rest' =>
            let m := N_of_byte y in
            if (N.leb 128 m && N.ltb m 192)%bool then
              match utf8_decode rest' with
              | Ok s => Ok (String (ascii_of_N (N.lor (N.shiftl (N.land n 3) 6) (N.land m 63))) s)
              | Raise e => Raise e
              end
            else Raise ValueError
        | [] => Raise ValueError
        end
      else Raise ValueError
  end.

(** *** Printing JSON *)

Definition dquote : ascii := ascii_of_nat 34.
Definition backslash : ascii := ascii_of_nat 92.

Definition hex_digit (n : N) : ascii :=
  if N.ltb n 10 then ascii_of_N (n + 48) else ascii_of_N (n + 87).

Definition hex2 (n : N) : string :=
  String (hex_digit (N.shiftr n 4)) (String (hex_digit (N.land n 15)) "").

(** One character inside a JSON string, as [json.dumps] writes it with
    [ensure_ascii] on. *)
Definition escape_char (c : ascii) : string :=
  let n := code c in
  if N.eqb n 34 then String backslash (String dquote "")
  else if N.eqb n 92 then String backslash (String backslash "")
  else if N.eqb n 10 then String backslash "n"
  else if N.eqb n 13 then String backslash "r"
  else if N.eqb n 9 then String backslash "t"
  else if N.eqb n 8 then String backslash "b"
  else if N.eqb n 12 then String backslash "f"
  else if (N.leb 32 n && N.leb n 126)%bool then String c ""
  else String backslash ("u00" ++ hex2 n).

Fixpoint escape (s : string) : string :=
  match s with
  | EmptyString => ""
  | String c s' => escape_char c ++ escape s'
  end.

Definition quoted (s : string) : string :=
  String dquote (escape s ++ String dquote "").

(** Stand-in for the decimal form of a finite float. *)
Definition print_float (f : spec_float) : string :=
  match f with
  | S754_nan => "NaN"
  | S754_infinity false => "Infinity"
  | S754_infinity true => "-Infinity"
  | S754_zero false => "0.0"
  | S754_zero true => "-0.0"
  | S754_finite s m e =>
      (if s then "-" else "") ++ str_of_int (Z.pos m) ++ "*2**" ++ str_of_int e
  end.

Fixpoint dumps (item_sep key_sep : string) (v : json) {struct v} : string :=
  match v with
  | JNull => "null"
  | JBool true => "true"
  | JBool false => "false"
  | JInt n => str_of_int n
  | JFloat f => print_float f
  | JStr s => quoted s
  | JList l =>
      "[" ++
      (fix elems (l : list json) : string :=
         match l with
         | [] => ""
         | [x] => dumps item_sep key_sep x
         | x :: l' => dumps item_sep key_sep x ++ item_sep ++ elems l'
         end) l
      ++ "]"
  | JDict d =>
      "{" ++
      (fix items (d : dict) : string :=
         match d with
         | [] => ""
         | [(k, x)] => quoted k ++ key_sep ++ dumps item_sep key_sep x
         | (k, x) :: d' =>
             quoted k ++ key_sep ++ dumps item_sep key_sep x ++ item_sep ++ items d'
         end) d
      ++ "}"
  end.

(** *** Reading JSON *)

Definition is_ws (c : ascii) : bool :=
  let n := code c in
  (N.eqb n 32 || N.eqb n 9 || N.eqb n 10 || N.eqb n 13)%bool.

Fixpoint skip_ws (s : string) : string :=
  match s with
  | String c s' => if is_ws c then skip_ws s' else s
  | EmptyString => s
  end.

Definition digit_of (c : ascii) : option Z :=
  let n := code c in
  if (N.leb 48 n && N.leb n 57)%bool then Some (Z.of_N n - 48) else None.

Definition hex_of (c : ascii) : option N :=
  let n := code c in
  if (N.leb 48 n && N.leb n 57)%bool then Some (n - 48)%N
  else if (N.leb 97 n && N.leb n 102)%bool then Some (n - 87)%N
  else if (N.leb 65 n && N.leb n 70)%bool then Some (n - 55)%N
  else None.

(** The characters after an opening quote, up to the closing one. *)
Fixpoint read_string (s : string) : option (string * string) :=
  match s with
  | EmptyString => None
  | String c s' =>
      if Ascii.eqb c dquote then Some ("", s')
      else if Ascii.eqb c backslash then
        match s' with
        | String e s'' =>
            let plain (x : ascii) :=
              match read_string s'' with
              | Some (r, rest) => Some (String x r, rest)
              | None => None
              end in
            if Ascii.eqb e dquote then plain dquote
            else if Ascii.eqb e backslash then plain backslash
            else if Ascii.eqb e "/" then plain "/"%char
            else if Ascii.eqb e "n" then plain (ascii_of_nat 10)
            else if Ascii.eqb e "r" then plain (ascii_of_nat 13)
            else if Ascii.eqb e "t" then plain (ascii_of_nat 9)
            else if Ascii.eqb e "b" then plain (ascii_of_nat 8)
            else if Ascii.eqb e "f" then plain (ascii_of_nat 12)
            else if Ascii.eqb e "u" then
              match s'' with
              | String a (String b (String x (String y s3))) =>
                  match hex_of a, hex_of b, hex_of x, hex_of y with
                  | Some 0%N, Some 0%N, Some h, Some l =>
                      match read_string s3 with
                      | Some (r, rest) =>
                          Some (String (ascii_of_N (16 * h + l)) r, rest)
                      | None => None
                      end
                  | _, _, _, _ => None
                  end
              | _ => None
              end
            else None
        | EmptyString => None
        end
      else if N.ltb (code c) 32 then None
      else
        match read_string s' with
        | Some (r, rest) => Some (String c r, rest)
        | None => None
        end
  end.

Fixpoint read_digits (s : string) (acc : Z) : Z * string :=
  match s with
  | String c s' =>
      match digit_of c with
      | Some d => read_digits s' (10 * acc + d)
      | None => (acc, s)
      end
  | EmptyString => (acc, s)
  end.

(** An integer: an optional minus sign, then a zero or digits without a
    leading zero, not followed by a fraction or an exponent.  CPython
    refuses to convert more than 4300 digits, with a plain [ValueError]. *)
Definition read_int (s : string) : pyresult (Z * string) :=
  let (neg, body) :=
    match s with
    | String "-" s' => (true, s')
    | _ => (false, s)
    end in
  match body with
  | String c s' =>
      match digit_of c with
      | Some d =>
          let (n, rest) := if Z.eqb d 0 then (0, s') else read_digits s' d in
          match rest with
          | String "." _ | String "e" _ | String "E" _ => Raise JSONDecodeError
          | _ =>
              if Nat.ltb 4300 (String.length body - String.length rest)
              then Raise ValueError
              else Ok (if neg then - n else n, rest)
          end
      | None => Raise JSONDecodeError
      end
  | EmptyString => Raise JSONDecodeError
  end.

(** [d[k] = v] *)
Fixpoint dict_set (d : dict) (k : string) (v : json) : dict :=
  match d with
  | [] => [(k, v)]
  | (k', v') :: d' =>
      if String.eqb k k' then (k, v) :: d' else (k', v') :: dict_set d' k v
  end.

Definition keyword (word : string) (v : json) (s : string) : pyresult (json * string) :=
  if startswith s word then Ok (v, drop (String.length word) s) else Raise JSONDecodeError.

Fixpoint read_value (fuel : nat) (s : string) : pyresult (json * string) :=
  match fuel with
  | O => Raise JSONDecodeError
  | S fuel' =>
      match skip_ws s with
      | String "n" _ => keyword "null" JNull (skip_ws s)
      | String "t" _ => keyword "true" (JBool true) (skip_ws s)
      | String "f" _ => keyword "false" (JBool false) (skip_ws s)
      | String "N" _ => keyword "NaN" (JFloat S754_nan) (skip_ws s)
      | String "I" _ => keyword "Infinity" (JFloat (S754_infinity false)) (skip_ws s)
      | String "[" r =>
          match skip_ws r with
          | String "]" r' => Ok (JList [], r')
          | _ => read_elements fuel' r []
          end
      | String "{" r =>
          match skip_ws r with
          | String "}" r' => Ok (JDict [], r')
          | _ => read_members fuel' r []
          end
      | String c r =>
          if Ascii.eqb c dquote then
            match read_string r with
            | Some (str, rest) => Ok (JStr str, rest)
            | None => Raise JSONDecodeError
            end
          else if startswith (String c r) "-Infinity" then
            Ok (JFloat (S754_infinity true), drop 9 (String c r))
          else
            match read_int (String c r) with
            | Ok (n, rest) => Ok (JInt n, rest)
            | Raise e => Raise e
            end
      | EmptyString => Raise JSONDecodeError
      end
  end
with read_elements (fuel : nat) (s : string) (acc : list json) : pyresult (json * string) :=
  match fuel with
  | O => Raise JSONDecodeError
  | S fuel' =>
      match read_value fuel' s with
      | Ok (v, r) =>
          match skip_ws r with
          | String "," r' => read_elements fuel' r' (v :: acc)
          | String "]" r' => Ok (JList (rev (v :: acc)), r')
          | _ => Raise JSONDecodeError
          end
      | Raise e => Raise e
      end
  end
with read_members (fuel : nat) (s : string) (acc : dict) : pyresult (json * string) :=
  match fuel with
  | O => Raise JSONDecodeError
  | S fuel' =>
      match skip_ws s with
      | String c r =>
          if Ascii.eqb c dquote then
            match read_string r with
            | Some (k, rest) =>
                match skip_ws rest with
                | String ":" rest' =>
                    match read_value fuel' rest' with
                    | Ok (v, r') =>
                        match skip_ws r' with
                        | String "," r'' => read_members fuel' r'' (dict_set acc k v)
                        | String "}" r'' => Ok (JDict (dict_set acc k v), r'')
                        | _ => Raise JSONDecodeError
                        end
                    | Raise e => Raise e
                    end
                | _ => Raise JSONDecodeError
                end
            | None => Raise JSONDecodeError
            end
          else Raise JSONDecodeError
      | EmptyString => Raise JSONDecodeError
      end
  end.

Definition loads (s : string) : pyresult json :=
  match read_value (S (String.length s)) s with
  | Ok (v, rest) =>
      match skip_ws rest with
      | EmptyString => Ok v
      | _ => Raise JSONDecodeError
      end
  | Raise e => Raise e
  end.

(** *** [str()] of a value that is not a string *)

Definition squote : ascii := ascii_of_nat 39.

(** One character inside the [repr] of a string delimited by [quote]. *)
Definition repr_char (quote c : ascii) : string :=
  let n := code c in
  if N.eqb n 92 then String backslash (String backslash "")
  else if Ascii.eqb c quote then String backslash (String c "")
  else if N.eqb n 10 then String backslash "n"
  else if N.eqb n 13 then String backslash "r"
  else if N.eqb n 9 then String backslash "t"
  else if (N.ltb n 32 || N.eqb n 127 || (N.leb 128 n && N.leb n 160) || N.eqb n 173)%bool
       then String backslash ("x" ++ hex2 n)
  else String c "".

Fixpoint repr_chars (quote : ascii) (s : string) : string :=
  match s with
  | EmptyString => ""
  | String c s' => repr_char quote c ++ repr_chars quote s'
  end.

(** [repr(s)]: double quotes when the string holds a single quote and no
    double quote, single quotes otherwise. *)
Definition repr_str (s : string) : string :=
  let quote := if (has_char squote s && negb (has_char dquote s))%bool then dquote else squote in
  String quote (repr_chars quote s ++ String quote "").

Fixpoint repr (v : json) {struct v} : string :=
  match v with
  | JNull => "None"
  | JBool true => "True"
  | JBool false => "False"
  | JInt n => str_of_int n
  | JFloat (S754_nan) => "nan"
  | JFloat (S754_infinity false) => "inf"
  | JFloat (S754_infinity true) => "-inf"
  | JFloat f => print_float f
  | JStr s => repr_str s
  | JList l =>
      "[" ++
      (fix elems (l : list json) : string :=
         match l with
         | [] => ""
         | [x] => repr x
         | x :: l' => repr x ++ ", " ++ elems l'
         end) l
      ++ "]"
  | JDict d =>
      "{" ++
      (fix items (d : dict) : string :=
         match d with
         | [] => ""
         | [(k, x)] => repr_str k ++ ": " ++ repr x
         | (k, x) :: d' => repr_str k ++ ": " ++ repr x ++ ", " ++ items d'
         end) d
      ++ "}"
  end.

(** *** HMAC-SHA256 *)

Definition w32 (x : N) : N := N.land x 4294967295.
Definition rotr (n x : N) : N := w32 (N.lor (N.shiftr x n) (N.shiftl x (32 - n))).
Definition add32 (x y : N) : N := w32 (x + y).
Definition not32 (x : N) : N := (4294967295 - x)%N.

Definition sha_k : list N :=
  [ 1116352408; 1899447441; 3049323471; 3921009573; 961987163; 1508970993;
    2453635748; 2870763221; 3624381080; 310598401; 607225278; 1426881987;
    1925078388; 2162078206; 2614888103; 3248222580; 3835390401; 4022224774;
    264347078; 604807628; 770255983; 1249150122; 1555081692; 1996064986;
    2554220882; 2821834349; 2952996808; 3210313671; 3336571891; 3584528711;
    113926993; 338241895; 666307205; 773529912; 1294757372; 1396182291;
    1695183700; 1986661051; 2177026350; 2456956037; 2730485921; 2820302411;
    3259730800; 3345764771; 3516065817; 3600352804; 4094571909; 275423344;
    430227734; 506948616; 659060556; 883997877; 958139571; 1322822218;
    1537002063; 1747873779; 1955562222; 2024104815; 2227730452; 2361852424;
    2428436474; 2756734187; 3204031479; 3329325298 ]%N.

Definition sha_h0 : list N :=
  [ 1779033703; 3144134277; 1013904242; 2773480762;
    1359893119; 2600822924; 528734635; 1541459225 ]%N.

(** Big-endian 32-bit words of a byte sequence. *)
Fixpoint words (b : list N) : list N :=
  match b with
  | x :: y :: z :: u :: rest =>
      (N.shiftl x 24 + N.shiftl y 16 + N.shiftl z 8 + u)%N :: words rest
  | _ => []
  end.

Definition small_sigma0 (x : N) : N :=
  N.lxor (N.lxor (rotr 7 x) (rotr 18 x)) (N.shiftr x 3).
Definition small_sigma1 (x : N) : N :=
  N.lxor (N.lxor (rotr 17 x) (rotr 19 x)) (N.shiftr x 10).
Definition big_sigma0 (x : N) : N :=
  N.lxor (N.lxor (rotr 2 x) (rotr 13 x)) (rotr 22 x).
Definition big_sigma1 (x : N) : N :=
  N.lxor (N.lxor (rotr 6 x) (rotr 11 x)) (rotr 25 x).

(** The message schedule, newest word first. *)
Fixpoint schedule (n : nat) (w : list N) : list N :=
  match n with
  | O => w
  | S n' =>
      let next :=
        add32 (add32 (small_sigma1 (nth 1 w 0%N)) (nth 6 w 0%N))
              (add32 (small_sigma0 (nth 14 w 0%N)) (nth 15 w 0%N)) in
      schedule n' (next :: w)
  end.

Definition sha_round (s : list N) (kw : N * N) : list N :=
  match s with
  | [a; b; c; d; e; f; g; h] =>
      let ch := N.lxor (N.land e f) (N.land (not32 e) g) in
      let maj := N.lxor (N.lxor (N.land a b) (N.land a c)) (N.land b c) in
      let t1 := add32 (add32 (add32 h (big_sigma1 e)) (add32 ch (fst kw))) (snd kw) in
      let t2 := add32 (big_sigma0 a) maj in
      [add32 t1 t2; a; b; c; add32 d t1; e; f; g]
  | _ => s
  end.

Definition compress (h : list N) (block : list N) : list N :=
  let w := rev (schedule 48 (rev (words block))) in
  let s := fold_left sha_round (combine sha_k w) h in
  map (fun p => add32 (fst p) (snd p)) (combine h s).

Fixpoint sha_blocks (n : nat) (b : list N) (h : list N) : list N :=
  match n with
  | O => h
  | S n' => sha_blocks n' (skipn 64 b) (compress h (firstn 64 b))
  end.

Definition be_bytes (n : nat) (x : N) : list N :=
  map (fun i => N.land (N.shiftr x (8 * N.of_nat i)) 255) (rev (seq 0 n)).

Definition sha256 (msg : list N) : list N :=
  let len := List.length msg in
  let zeros := Nat.modulo (119 - Nat.modulo len 64) 64 in
  let padded :=
    (msg ++ [128%N] ++ repeat 0%N zeros ++ be_bytes 8 (8 * N.of_nat len))%list in
  flat_map (be_bytes 4) (sha_blocks (Nat.div (List.length padded) 64) padded sha_h0).

Definition hmac (key msg : bytes) : bytes :=
  let key := map N_of_byte key in
  let key := if Nat.ltb 64 (List.length key) then sha256 key else key in
  let key := (key ++ repeat 0%N (Nat.sub 64 (List.length key)))%list in
  map byte_of_N
    (sha256 (map (N.lxor 92) key
             ++ sha256 (map (N.lxor 54) key ++ map N_of_byte msg))%list).

#[export] Instance runtime : PyRuntime := {|
  json_loads := loads;
  json_dumps := dumps ", " ": ";
  json_dumps_compact := dumps "," ":";
  str_of_value := repr;
  str_encode := utf8_encode;
  bytes_decode := utf8_decode;
  urlsafe_b64encode := b64encode;
  urlsafe_b64decode := b64decode;
  hmac_sha256 := hmac
|}.

End Fixture.

(** ** The claims of the specification, in its own words *)

(** "The string x occurs as a substring of the field": the field holds
    a string and x is part of it. *)
Definition occurs_as_substring (x : string) (field : json) : bool :=
  match field with
  | JStr s => str_in x s
  | _ => false
  end.

(** "The account_id of the requested resource/context": the account that
    the body of the request names in its [user_context]. *)
Definition requested_account (data : json) : json :=
  match data with
  | JDict body =>
      match dict_get body "user_context" (JDict []) with
      | JDict context => dict_get context "account_id" JNull
      | _ => JNull
      end
  | _ => JNull
  end.

(** "The token claim account_id". *)
Definition account_claim (claims : dict) : json := dict_get claims "account_id" JNull.

(** "The expires_at claim is not in the future at verification time." *)
Definition expired_at (claims : dict) (now : Z) : bool :=
  match lookup "exp" claims with
  | Some (JInt e) => e <=? now
  | _ => false
  end.

(** "The audience claim differs from the expected audience." *)
Definition audience_differs (claims : dict) (expected : string) : bool :=
  negb (eq_str (dict_get claims "aud" JNull) expected).

(** ** Example requests *)

Module Examples.

Definition header_segment : string := "eyJhbGciOiJIUzI1NiIsInR5cCI6IkpXVCJ9".

(** The access token that the login endpoint mints for
    [alice@engineering.corp] and account [acct_1] when the clock reads
    1717583400. *)
Definition alice_payload : string :=
  "eyJzdWIiOiJhbGljZUBlbmdpbmVlcmluZy5jb3JwIiwiYXVkIjoib3BlbnNlYXJjaC1jZWRhcmxpbmciLCJpc3MiOiJodHRwczovL2phbnMuZXhhbXBsZS5jb20iLCJleHAiOjE3MTc1ODcwMDAsImlhdCI6MTcxNzU4MzQwMCwiYWNjb3VudF9pZCI6ImFjY3RfMSIsImRlcGFydG1lbnQiOiJlbmdpbmVlcmluZyIsImFjY2Vzc19sZXZlbCI6ImZ1bGwiLCJyb2xlcyI6WyJkZXZlbG9wZXIiLCJkYXRhX3JlYWRlciIsImVuZ2luZWVyIl19".

Definition alice_signature : string := "R_JH09d042XiLUq5JSHnWinPKBiwbXkc9L7_7tfQrwQ".

Definition alice_token : string :=
  header_segment ++ "." ++ alice_payload ++ "." ++ alice_signature.

Definition alice_claims : dict :=
  [ ("sub", JStr "alice@engineering.corp");
    ("aud", JStr "opensearch-cedarling");
    ("iss", JStr "https://jans.example.com");
    ("exp", JInt 1717587000);
    ("iat", JInt 1717583400);
    ("account_id", JStr "acct_1");
    ("department", JStr "engineering");
    ("access_level", JStr "full");
    ("roles", JList [JStr "developer"; JStr "data_reader"; JStr "engineer"]) ].

(** The same claims with [exp] set to 1 and [iat] to 0, signed with the
    demo secret. *)
Definition expired_payload : string :=
  "eyJzdWIiOiJhbGljZUBlbmdpbmVlcmluZy5jb3JwIiwiYXVkIjoib3BlbnNlYXJjaC1jZWRhcmxpbmciLCJpc3MiOiJodHRwczovL2phbnMuZXhhbXBsZS5jb20iLCJleHAiOjEsImlhdCI6MCwiYWNjb3VudF9pZCI6ImFjY3RfMSIsImRlcGFydG1lbnQiOiJlbmdpbmVlcmluZyIsImFjY2Vzc19sZXZlbCI6ImZ1bGwiLCJyb2xlcyI6WyJkZXZlbG9wZXIiLCJkYXRhX3JlYWRlciIsImVuZ2luZWVyIl19".

Definition expired_signature : string := "K_po3ePKaOJT2-I_TW7oBvGnTCFHjo0ZMS6F5TdnzOc".

Definition expired_token : string :=
  header_segment ++ "." ++ expired_payload ++ "." ++ expired_signature.

Definition expired_claims : dict :=
  [ ("sub", JStr "alice@engineering.corp");
    ("aud", JStr "opensearch-cedarling");
    ("iss", JStr "https://jans.example.com");
    ("exp", JInt 1);
    ("iat", JInt 0);
    ("account_id", JStr "acct_1");
    ("department", JStr "engineering");
    ("access_level", JStr "full");
    ("roles", JList [JStr "developer"; JStr "data_reader"; JStr "engineer"]) ].

(** The same claims with another audience, signed with the demo
    secret. *)
Definition foreign_audience_payload : string :=
  "eyJzdWIiOiJhbGljZUBlbmdpbmVlcmluZy5jb3JwIiwiYXVkIjoic29tZS1vdGhlci1zZXJ2aWNlIiwiaXNzIjoiaHR0cHM6Ly9qYW5zLmV4YW1wbGUuY29tIiwiZXhwIjoxNzE3NTg3MDAwLCJpYXQiOjE3MTc1ODM0MDAsImFjY291bnRfaWQiOiJhY2N0XzEiLCJkZXBhcnRtZW50IjoiZW5naW5lZXJpbmciLCJhY2Nlc3NfbGV2ZWwiOiJmdWxsIiwicm9sZXMiOlsiZGV2ZWxvcGVyIiwiZGF0YV9yZWFkZXIiLCJlbmdpbmVlciJdfQ".

Definition foreign_audience_signature : string :=
  "mfZgRJX067x5II-mWBvrq-HyUswdgnLqlU_3inpq0ek".

Definition foreign_audience_token : string :=
  header_segment ++ "." ++ foreign_audience_payload ++ "." ++ foreign_audience_signature.

Definition foreign_audience_claims : dict :=
  [ ("sub", JStr "alice@engineering.corp");
    ("aud", JStr "some-other-service");
    ("iss", JStr "https://jans.example.com");
    ("exp", JInt 1717587000);
    ("iat", JInt 1717583400);
    ("account_id", JStr "acct_1");
    ("department", JStr "engineering");
    ("access_level", JStr "full");
    ("roles", JList [JStr "developer"; JStr "data_reader"; JStr "engineer"]) ].

(** The access token that the login endpoint mints for [bob@sales.corp]
    and account [acct_2] when the clock reads 1717583400. *)
Definition bob_payload : string :=
  "eyJzdWIiOiJib2JAc2FsZXMuY29ycCIsImF1ZCI6Im9wZW5zZWFyY2gtY2VkYXJsaW5nIiwiaXNzIjoiaHR0cHM6Ly9qYW5zLmV4YW1wbGUuY29tIiwiZXhwIjoxNzE3NTg3MDAwLCJpYXQiOjE3MTc1ODM0MDAsImFjY291bnRfaWQiOiJhY2N0XzIiLCJkZXBhcnRtZW50Ijoic2FsZXMiLCJhY2Nlc3NfbGV2ZWwiOiJsaW1pdGVkIiwicm9sZXMiOlsic2FsZXNfcmVwIiwiY3VzdG9tZXJfZGF0YV9yZWFkZXIiXX0".

Definition bob_signature : string := "XZSalLG5q5zq_Rb9eojIfyJoJj3omBknMNOkUWJKv1M".

Definition bob_token : string :=
  header_segment ++ "." ++ bob_payload ++ "." ++ bob_signature.

Definition bob_claims : dict :=
  [ ("sub", JStr "bob@sales.corp");
    ("aud", JStr "opensearch-cedarling");
    ("iss", JStr "https://jans.example.com");
    ("exp", JInt 1717587000);
    ("iat", JInt 1717583400);
    ("account_id", JStr "acct_2");
    ("department", JStr "sales");
    ("access_level", JStr "limited");
    ("roles", JList [JStr "sales_rep"; JStr "customer_data_reader"]) ].

Definition bob_login : json :=
  JDict [("email", JStr "bob@sales.corp"); ("account_id", JStr "acct_2")].

(** A token whose payload segment is the JSON text of an empty list,
    signed with the demo secret. *)
Definition list_token : string :=
  header_segment ++ "." ++ "W10" ++ "." ++ "h9wnUb3AAEF1UhU2xi2U3c5RQRryJTvQYAo9moS8XBo".

Definition bearer (token : string) : list (string * string) :=
  [ ("Content-Type", "application/json"); ("Authorization", "Bearer " ++ token) ].

(** The bodies that the page posts for its customer and public queries. *)
Definition customer_query : json :=
  JDict [ ("index", JStr "customer-data");
          ("query",
           JDict [ ("query",
                    JDict [ ("bool",
                             JDict [ ("must",
                                      JList [ JDict [("match", JDict [("status", JStr "active")])];
                                              JDict [("term", JDict [("account_id", JStr "acct_1")])] ]) ]) ]);
                   ("size", JInt 10) ]);
          ("user_context",
           JDict [ ("email", JStr "alice@engineering.corp");
                   ("account_id", JStr "acct_1");
                   ("department", JStr "engineering") ]) ].

Definition public_query : json :=
  JDict [ ("index", JStr "public-data");
          ("query",
           JDict [ ("query", JDict [("match", JDict [("visibility", JStr "public")])]);
                   ("size", JInt 20) ]);
          ("user_context",
           JDict [ ("email", JStr "alice@engineering.corp");
                   ("account_id", JStr "acct_1");
                   ("department", JStr "engineering") ]) ].

Definition a_timing : timing :=
  {| elapsed_ms := S754_zero false; stamp := "2024-06-05T10:30:00Z" |}.

Definition a_stamp : string := "2024-06-05T10:30:00Z".

Definition a_clock : clock := fun n => 1717583400 + Z.of_nat n.

Definition still_clock : clock := fun _ => 1717583400.

Definition alice_login : json :=
  JDict [("email", JStr "alice@engineering.corp"); ("account_id", JStr "acct_1")].

(** The query endpoint and the decoder on the concrete runtime. *)
Definition run_query : list (string * string) -> json -> pyresult LiveTest.query_response :=
  @LiveTest.handle_opensearch_query_post Fixture.runtime a_timing a_stamp.

Definition decode : string -> pyresult json :=
  @LiveTest.decode_jwt_token Fixture.runtime.

(** The compact JSON text of a value, and its UTF-8 bytes: what the
    payload segment of a minted token holds. *)
Definition payload_text (payload : json) : string :=
  @json_dumps_compact Fixture.runtime payload.

Definition payload_bytes (payload : json) : bytes :=
  @str_encode Fixture.runtime (payload_text payload).

Definition engineering_request : LiveTest.auth_request :=
  {| LiveTest.req_principal := "user:alice@engineering.corp";
     LiveTest.req_action := "read";
     LiveTest.req_resource := "index:engineering-docs";
     LiveTest.req_context :=
       [("account_id", JStr "acct_1"); ("query_type", JStr "engineering")] |}.

Definition general_request : LiveTest.auth_request :=
  {| LiveTest.req_principal := "user:alice@engineering.corp";
     LiveTest.req_action := "read";
     LiveTest.req_resource := "index:logs";
     LiveTest.req_context :=
       [("account_id", JStr "acct_1"); ("query_type", JStr "general")] |}.

End Examples.

(** ** Routing and the remaining endpoints *)

(** The [do_GET] and [do_POST] methods are embedded from the point where
    [path] holds [urlparse(self.path).path] and [post_data] the decoded
    request body. *)

(** [demo/tbac-live-test.py] *)
Module LiveTestRoutes.

Import LiveTest.

(** What a POST sends back: the JSON body of one of the two handlers, or
    the error page of [send_error]. *)
Inductive post_response : Type :=
| LoginAnswer (r : login_response)
| QueryAnswer (r : query_response)
| PostError (code : Z).

(** What a GET sends back: the page of [serve_tbac_live_demo] (a string
    literal, not repeated here) or the error page of [send_error]. *)
Inductive get_response : Type :=
| DemoPage
| GetError (code : Z).

(** The class defines [serve_tbac_live_demo] and the two [..._post]
    handlers only: [serve_login_interface], [handle_login],
    [handle_opensearch_query] and [handle_logout] are looked up on the
    handler object and not found. *)
Definition do_GET (path : string) : pyresult get_response :=
  if String.eqb path "/" then Ok DemoPage
  else if String.eqb path "/login" then Raise AttributeError
  else if String.eqb path "/api/login" then Raise AttributeError
  else if String.eqb path "/api/query" then Raise AttributeError
  else if String.eqb path "/api/logout" then Raise AttributeError
  else Ok (GetError 404).

Section WithRuntime.

Context `{PyRuntime}.

(** [json.loads(post_data) if post_data else {}] under
    [except json.JSONDecodeError]: every other exception of [json.loads]
    leaves the method. *)
Definition read_body (post_data : string) : pyresult json :=
  if String.eqb post_data "" then Ok (JDict [])
  else
    match json_loads post_data with
    | Ok data => Ok data
    | Raise JSONDecodeError => Ok (JDict [])
    | Raise e => Raise e
    end.

Definition do_POST (clk : clock) (t : timing) (now : string)
    (headers : list (string * string)) (path post_data : string)
    : pyresult post_response :=
  (data <- read_body post_data ;;
   if String.eqb path "/api/login" then
     r <- handle_login_post clk data ;; Ok (LoginAnswer r)
   else if String.eqb path "/api/query" then
     r <- handle_opensearch_query_post t now headers data ;; Ok (QueryAnswer r)
   else Ok (PostError 404))%py.

End WithRuntime.

End LiveTestRoutes.

Record schema_response : Type := {
  schema_id : string;
  schema_name : json;
  schema_status : string;
  schema_timestamp : string;
  schema_cedarling_engine : option string
}.

(** [demo/opensearch-cedarling-production.py] *)
Module ProductionRoutes.

Definition handle_schema_creation (seconds : Z) (now : string) (data : json)
    : pyresult schema_response :=
  (schema_name <- py_get data "name" JNull ;;
   Ok {| schema_id := "schema_" ++ str_of_int seconds;
         schema_name := schema_name;
         schema_status := "created";
         schema_timestamp := now;
         schema_cedarling_engine := Some "embedded-uniffi" |})%py.

Inductive post_response : Type :=
| AuthorizeAnswer (r : authorize_response)
| SchemaAnswer (r : schema_response)
| PolicyAnswer (r : policy_response)
| PostError (code : Z).

Section WithRuntime.

Context `{PyRuntime}.

Definition do_POST (seconds : Z) (now : string) (path post_data : string)
    : pyresult post_response :=
  (data <- LiveTestRoutes.read_body post_data ;;
   if String.eqb path "/_plugins/_cedarling/data-policies/authorize" then
     r <- Production.handle_authorization now data ;; Ok (AuthorizeAnswer r)
   else if String.eqb path "/_plugins/_cedarling/data-policies/schema" then
     r <- handle_schema_creation seconds now data ;; Ok (SchemaAnswer r)
   else if String.eqb path "/_plugins/_cedarling/data-policies/policy" then
     r <- Production.handle_policy_creation seconds now data ;; Ok (PolicyAnswer r)
   else Ok (PostError 404))%py.

End WithRuntime.

End ProductionRoutes.

(** [demo/deploy-opensearch-with-cedarling.py] *)
Module DeployRoutes.

Definition create_schema (seconds : Z) (now : string) (data : json)
    : pyresult schema_response :=
  (schema_name <- py_get data "name" JNull ;;
   Ok {| schema_id := "schema_" ++ str_of_int seconds;
         schema_name := schema_name;
         schema_status := "created";
         schema_timestamp := now;
         schema_cedarling_engine := None |})%py.

End DeployRoutes.

(** ** Reading the simulated search results *)

(** [result['hits']['hits']] *)
Definition result_hits (result : json) : list json :=
  match result with
  | JDict d =>
      match lookup "hits" d with
      | Some (JDict h) =>
          match lookup "hits" h with
          | Some (JList l) => l
          | _ => []
          end
      | _ => []
      end
  | _ => []
  end.

(** [hit[key]] and [hit['_source'][key]], when present. *)
Definition hit_field (hit : json) (key : string) : option json :=
  match hit with
  | JDict d => lookup key d
  | _ => None
  end.

Definition source_field (hit : json) (key : string) : option json :=
  match hit_field hit "_source" with
  | Some (JDict src) => lookup key src
  | _ => None
  end.

(** The nine words that [classify_query] looks for. *)
Definition keywords : list string :=
  [ "confidential"; "admin"; "financial"; "finance"; "engineering"; "technical";
    "customer"; "account_id"; "public" ].

(** A value that [in] can search: a string, a list or a dict. *)
Definition searchable (v : json) : bool :=
  match v with
  | JStr _ | JList _ | JDict _ => true
  | _ => false
  end.

Definition is_dict (v : json) : bool :=
  match v with
  | JDict _ => true
  | _ => false
  end.

Definition is_str (v : json) : bool :=
  match v with
  | JStr _ => true
  | _ => false
  end.

(** ** More example requests *)

Module MoreExamples.

Import Examples.

(** Three segments, no signature, and the JSON text of an empty object as
    payload. *)
Definition unsigned_empty_token : string := "e30.e30.".

(** Alice's customer query, asking for the account [acct_2] in the query
    and in [user_context]. *)
Definition foreign_account_query : json :=
  JDict [ ("index", JStr "customer-data");
          ("query",
           JDict [ ("query",
                    JDict [ ("bool",
                             JDict [ ("must",
                                      JList [ JDict [("match", JDict [("status", JStr "active")])];
                                              JDict [("term", JDict [("account_id", JStr "acct_2")])] ]) ]) ]);
                   ("size", JInt 10) ]);
          ("user_context",
           JDict [ ("email", JStr "mallory@elsewhere.example");
                   ("account_id", JStr "acct_2");
                   ("department", JStr "sales") ]) ].

(** The body of [customer_query], and the same with another
    [user_context]. *)
Definition customer_body : dict :=
  match customer_query with JDict body => body | _ => [] end.

Definition other_context_body : dict :=
  [ ("index", dict_get customer_body "index" JNull);
    ("query", dict_get customer_body "query" JNull);
    ("user_context", JDict [("account_id", JStr "acct_9")]) ].

Definition log_query : json :=
  JDict [ ("index", JStr "application-logs");
          ("query", JDict [("query", JDict [("match_all", JDict [])])]) ].

Definition log_body : dict :=
  match log_query with JDict body => body | _ => [] end.

Definition public_body : dict :=
  match public_query with JDict body => body | _ => [] end.

Definition financial_request : LiveTest.auth_request :=
  {| LiveTest.req_principal := "user:charlie@finance.corp";
     LiveTest.req_action := "read";
     LiveTest.req_resource := "index:financial-reports";
     LiveTest.req_context := [("query_type", JStr "financial")] |}.

End MoreExamples.

(** * Properties *)

(** ** Results and strings *)

Lemma bind_ok {A B : Type} (m : pyresult A) (k : A -> pyresult B) (b : B) :
  bind m k = Ok b -> exists a, m = Ok a /\ k a = Ok b.
Proof.
  destruct m as [a | e]; simpl; intros Hk.
  - exists a. split; [reflexivity | exact Hk].
  - discriminate Hk.
Qed.

Lemma py_get_ok (v : json) (k : string) (default r : json) :
  py_get v k default = Ok r -> exists d, v = JDict d /\ r = dict_get d k default.
Proof.
  destruct v; simpl; intros Hr; try discriminate Hr.
  injection Hr as <-. eexists. split; reflexivity.
Qed.

Lemma eq_str_true (v : json) (s : string) :
  eq_str v s = true <-> v = JStr s.
Proof.
  unfold eq_str. split.
  - destruct v; simpl; intros Hv; try discriminate Hv.
    apply String.eqb_eq in Hv. now subst.
  - intros ->. simpl. apply String.eqb_refl.
Qed.

Lemma value_in_strs_true (v : json) (l : list string) :
  value_in_strs v l = true <-> exists s, In s l /\ v = JStr s.
Proof.
  unfold value_in_strs. rewrite existsb_exists.
  split; intros [s [Hin Hs]]; exists s; (split; [exact Hin | now apply eq_str_true]).
Qed.

Lemma split_segment (sep : ascii) (a b : string) :
  has_char sep a = false ->
  split sep (a ++ String sep b) = a :: split sep b.
Proof.
  induction a as [| c a IH]; simpl; intros Hfree.
  - now rewrite Ascii.eqb_refl.
  - apply orb_false_iff in Hfree as [Hc Ha].
    rewrite Hc, (IH Ha). reflexivity.
Qed.

Lemma split_last (sep : ascii) (a : string) :
  has_char sep a = false -> split sep a = [a].
Proof.
  induction a as [| c a IH]; simpl; intros Hfree.
  - reflexivity.
  - apply orb_false_iff in Hfree as [Hc Ha].
    rewrite Hc, (IH Ha). reflexivity.
Qed.

(** A token written as three dot-free segments splits into them. *)
Lemma split_token (h p s : string) :
  has_char "." h = false -> has_char "." p = false -> has_char "." s = false ->
  split "." (h ++ "." ++ p ++ "." ++ s) = [h; p; s].
Proof.
  intros Hh Hp Hs.
  change (h ++ "." ++ p ++ "." ++ s) with (h ++ String "." (p ++ String "." s)).
  rewrite (split_segment _ _ _ Hh), (split_segment _ _ _ Hp), (split_last _ _ Hs).
  reflexivity.
Qed.

(** ** The policy evaluator of [tbac-live-test.py] *)

Section Evaluator.

Import LiveTest.

Variable t : timing.
Variable request : auth_request.

(** The evaluator returns exactly when the claims are a dict whose
    [department] is a string (or missing). *)
Lemma evaluate_returns (claims : dict) (dep : string) :
  dict_get claims "department" (JStr "") = JStr dep ->
  exists r, evaluate_tbac_policy t request (JDict claims) = Ok r.
Proof.
  intros Hdep. unfold evaluate_tbac_policy. simpl. rewrite Hdep.
  destruct (policy_branches _ _ _ _ _) as [[dcs pol] why]. simpl.
  eexists. reflexivity.
Qed.

(** What a returned result says about the branch taken. *)
Lemma evaluate_result (token_claims : json) (r : auth_result) :
  evaluate_tbac_policy t request token_claims = Ok r ->
  exists claims,
    token_claims = JDict claims /\
    policy_branches (dict_get (req_context request) "query_type" (JStr ""))
      (dict_get claims "department" (JStr ""))
      (dict_get claims "access_level" (JStr ""))
      (dict_get claims "account_id" (JStr "")) (req_context request)
    = (decision r, policies_applied r, reason r) /\
    account_match r =
      py_eq (dict_get claims "account_id" (JStr ""))
            (dict_get (req_context request) "account_id" (JStr "")).
Proof.
  unfold evaluate_tbac_policy.
  destruct token_claims as [ | | | | | | claims]; simpl; try discriminate.
  destruct (policy_branches _ _ _ _ _) as [[dcs pol] why] eqn:Hbranch.
  destruct (value_in_str _ _); simpl; try discriminate.
  intros Hr. injection Hr as <-. simpl.
  exists claims. split; [reflexivity | split; [exact Hbranch | reflexivity]].
Qed.

Lemma branches_decision (qt dep lvl acct : json) (ctx : dict) :
  let '(dcs, pol, _) := policy_branches qt dep lvl acct ctx in
  (dcs = "ALLOW" /\ pol <> []) \/ (dcs = "DENY" /\ pol = []).
Proof.
  unfold policy_branches.
  repeat match goal with
         | |- context [if ?b then _ else _] => destruct b
         end;
    solve [left; split; [reflexivity | discriminate]
          | right; split; reflexivity].
Qed.

Lemma branches_default (qt dep lvl acct : json) (ctx : dict) :
  eq_str qt "public" = false ->
  eq_str qt "customer_data" = false ->
  eq_str qt "financial" = false ->
  eq_str qt "engineering" = false ->
  eq_str qt "confidential" = false ->
  policy_branches qt dep lvl acct ctx = ("DENY", [], "Default deny").
Proof.
  intros H1 H2 H3 H4 H5. unfold policy_branches.
  now rewrite H1, H2, H3, H4, H5.
Qed.

Lemma branches_customer_data (dep lvl acct : json) (ctx : dict) :
  policy_branches (JStr "customer_data") dep lvl acct ctx =
  if py_eq acct (dict_get ctx "account_id" (JStr "")) then
    ("ALLOW", ["CustomerDataAccess"; "AccountIsolation"],
     "Account ID matches user account")
  else
    ("DENY", [], "Account ID mismatch - user can only access own data").
Proof. reflexivity. Qed.

End Evaluator.

(** ** The query endpoint of [tbac-live-test.py] *)

Section QueryEndpoint.

Import LiveTest.

Context `{PyRuntime}.

Variable t : timing.
Variable now : string.

Lemma query_without_bearer (headers : list (string * string)) (data : json) :
  startswith (headers_get headers "Authorization" "") "Bearer " = false ->
  handle_opensearch_query_post t now headers data =
  Ok (Rejected "Missing or invalid authorization header" "DENY" "No token provided").
Proof.
  intros Hhead. unfold handle_opensearch_query_post. now rewrite Hhead.
Qed.

Lemma query_with_bearer (headers : list (string * string)) (data : json) (token : string) :
  headers_get headers "Authorization" "" = "Bearer " ++ token ->
  handle_opensearch_query_post t now headers data =
  match decode_jwt_token token with
  | Raise _ => Ok (Rejected "Invalid token format" "DENY" "Invalid token")
  | Ok token_claims => answer_query t now data token_claims
  end.
Proof.
  intros Hhead. unfold handle_opensearch_query_post. rewrite Hhead.
  simpl. reflexivity.
Qed.

(** A token that does not decode is answered, not raised. *)
Lemma query_with_bad_token (headers : list (string * string)) (data : json)
    (token : string) (e : exc) :
  headers_get headers "Authorization" "" = "Bearer " ++ token ->
  decode_jwt_token token = Raise e ->
  handle_opensearch_query_post t now headers data =
  Ok (Rejected "Invalid token format" "DENY" "Invalid token").
Proof.
  intros Hhead Hdec. rewrite (query_with_bearer _ _ _ Hhead), Hdec. reflexivity.
Qed.

(** The only exception that leaves [decode_jwt_token] is [ValueError]. *)
Lemma decode_raises_value_error (token : string) (e : exc) :
  decode_jwt_token token = Raise e -> e = ValueError.
Proof.
  unfold decode_jwt_token, try_except.
  destruct (if negb _ then _ else _); intros Hd; [discriminate | now injection Hd].
Qed.

(** A response that was produced went through the evaluator. *)
Lemma answer_query_result (data token_claims : json) (resp : query_response) :
  answer_query t now data token_claims = Ok resp ->
  exists body claims a,
    data = JDict body /\ token_claims = JDict claims /\
    evaluate_tbac_policy t (built_request body claims) token_claims = Ok a /\
    exists results meta, resp = Evaluated a results meta.
Proof.
  unfold answer_query.
  destruct data as [ | | | | | | body]; simpl; try discriminate.
  destruct token_claims as [ | | | | | | claims]; simpl; try discriminate.
  fold (built_request body claims).
  destruct (evaluate_tbac_policy t (built_request body claims) (JDict claims))
    as [a | e] eqn:Heval; simpl; try discriminate.
  intros Hresp. exists body, claims, a.
  split; [reflexivity | split; [reflexivity | split; [exact Heval | ]]].
  destruct (String.eqb (decision a) "ALLOW").
  - destruct (simulate_opensearch_query _ _ _); simpl in Hresp; try discriminate.
    injection Hresp as <-. do 2 eexists. reflexivity.
  - simpl in Hresp. injection Hresp as <-. do 2 eexists. reflexivity.
Qed.

(** With a dict body, dict claims, a string [department] and a string
    [index], a response is produced. *)
Lemma answer_query_returns (body claims : dict) (dep idx : string) :
  dict_get claims "department" (JStr "") = JStr dep ->
  dict_get body "index" (JStr "") = JStr idx ->
  exists resp, answer_query t now (JDict body) (JDict claims) = Ok resp.
Proof.
  intros Hdep Hidx. unfold answer_query. simpl.
  fold (built_request body claims).
  destruct (evaluate_returns t (built_request body claims) claims dep Hdep) as [a Ha].
  rewrite Ha. simpl.
  destruct (String.eqb (decision a) "ALLOW").
  - unfold simulate_opensearch_query. simpl. rewrite Hidx. simpl.
    repeat match goal with
           | |- context [if ?b then _ else _] => destruct b; simpl
           end; eexists; reflexivity.
  - simpl. eexists. reflexivity.
Qed.

(** The response reads four claims of the token and no other. *)
Lemma answer_query_reads (data : json) (c1 c2 : dict) :
  (forall k, In k ["sub"; "account_id"; "department"; "access_level"] ->
             lookup k c1 = lookup k c2) ->
  answer_query t now data (JDict c1) = answer_query t now data (JDict c2).
Proof.
  intros Hsame.
  assert (Hget : forall k, In k ["sub"; "account_id"; "department"; "access_level"] ->
                           dict_get c1 k (JStr "") = dict_get c2 k (JStr "")).
  { intros k Hk. unfold dict_get. now rewrite (Hsame k Hk). }
  assert (Hsub := Hget "sub" ltac:(simpl; tauto)).
  assert (Hacct := Hget "account_id" ltac:(simpl; tauto)).
  assert (Hdep := Hget "department" ltac:(simpl; tauto)).
  assert (Hlvl := Hget "access_level" ltac:(simpl; tauto)).
  unfold answer_query, evaluate_tbac_policy, simulate_opensearch_query.
  cbn [py_get bind].
  rewrite Hsub, Hacct, Hdep, Hlvl. reflexivity.
Qed.

End QueryEndpoint.

(** ** Decisions of the evaluator *)

Section Decisions.

Import LiveTest.

Context `{PyRuntime}.

(** For a request of type [customer_data] the evaluator compares the
    [account_id] claim with the [account_id] of the request context. *)
Lemma evaluate_customer_data (t : timing) (request : auth_request)
    (token_claims : json) (r : auth_result) :
  dict_get (req_context request) "query_type" (JStr "") = JStr "customer_data" ->
  evaluate_tbac_policy t request token_claims = Ok r ->
  exists claims,
    token_claims = JDict claims /\
    let token_account := dict_get claims "account_id" (JStr "") in
    let context_account := dict_get (req_context request) "account_id" (JStr "") in
    (decision r = "ALLOW" <-> py_eq token_account context_account = true) /\
    (py_eq token_account context_account = false ->
     decision r = "DENY" /\ policies_applied r = []).
Proof.
  intros Htype Heval.
  destruct (evaluate_result _ _ _ _ Heval) as [claims [-> [Hbranch _]]].
  exists claims. split; [reflexivity | ].
  rewrite Htype, branches_customer_data in Hbranch. simpl.
  destruct (py_eq _ _); injection Hbranch as <- <- _.
  - split; [tauto | discriminate].
  - split; [split; discriminate | tauto].
Qed.

(** The context that the handler builds takes its [account_id] from the
    claims of the token; the [user_context] of the body is not consulted. *)
Lemma built_request_account (body claims : dict) :
  dict_get (req_context (built_request body claims)) "account_id" (JStr "") =
  dict_get claims "account_id" (JStr "").
Proof. reflexivity. Qed.

(** The request built by the handler carries the class of the query. *)
Lemma built_request_query_type (body claims : dict) :
  dict_get (req_context (built_request body claims)) "query_type" (JStr "") =
  JStr (classify_query (dict_get body "query" (JDict []))).
Proof. reflexivity. Qed.

(** C3. When the [query_type] of the request is none of [public],
    [customer_data], [financial], [engineering] and [confidential], every
    result of the evaluator carries the decision DENY, no applied policy
    and the reason of the default; a result is produced whenever the
    claims are a dict whose [department] is a string. *)
Theorem unmatched_query_type_is_denied (t : timing) (request : auth_request)
    (token_claims : json) :
  (forall category,
     In category ["public"; "customer_data"; "financial"; "engineering"; "confidential"] ->
     dict_get (req_context request) "query_type" (JStr "") <> JStr category) ->
  (forall r,
     evaluate_tbac_policy t request token_claims = Ok r ->
     decision r = "DENY" /\ policies_applied r = [] /\ reason r = "Default deny")
  /\
  (forall claims dep,
     token_claims = JDict claims ->
     dict_get claims "department" (JStr "") = JStr dep ->
     exists r, evaluate_tbac_policy t request token_claims = Ok r).
Proof.
  intros Hnone. split.
  - intros r Heval.
    destruct (evaluate_result _ _ _ _ Heval) as [claims [-> [Hbranch _]]].
    rewrite branches_default in Hbranch.
    + now injection Hbranch as <- <- <-.
    + apply not_true_is_false. rewrite eq_str_true. apply Hnone. simpl. tauto.
    + apply not_true_is_false. rewrite eq_str_true. apply Hnone. simpl. tauto.
    + apply not_true_is_false. rewrite eq_str_true. apply Hnone. simpl. tauto.
    + apply not_true_is_false. rewrite eq_str_true. apply Hnone. simpl. tauto.
    + apply not_true_is_false. rewrite eq_str_true. apply Hnone. simpl. tauto.
  - intros claims dep -> Hdep. exact (evaluate_returns t request claims dep Hdep).
Qed.

(** C4. Every result of the evaluator carries the decision ALLOW or DENY
    and a list of applied policies, possibly empty; ALLOW comes with at
    least one applied policy; a result with no applied policy is a DENY,
    and a DENY carries no policy at all. *)
Theorem decision_invariant (t : timing) (request : auth_request)
    (token_claims : json) (r : auth_result) :
  evaluate_tbac_policy t request token_claims = Ok r ->
  (decision r = "ALLOW" \/ decision r = "DENY") /\
  (decision r = "ALLOW" -> policies_applied r <> []) /\
  (policies_applied r = [] -> decision r = "DENY") /\
  (decision r = "DENY" -> policies_applied r = []).
Proof.
  intros Heval.
  destruct (evaluate_result _ _ _ _ Heval) as [claims [_ [Hbranch _]]].
  pose proof (branches_decision
                (dict_get (req_context request) "query_type" (JStr ""))
                (dict_get claims "department" (JStr ""))
                (dict_get claims "access_level" (JStr ""))
                (dict_get claims "account_id" (JStr ""))
                (req_context request)) as Hdec.
  rewrite Hbranch in Hdec.
  destruct Hdec as [[-> Hpol] | [-> ->]].
  - split; [now left | ].
    split; [intros _; exact Hpol | ].
    split; [intros Hnil; contradiction | discriminate].
  - split; [now right | ].
    split; [discriminate | ].
    split; reflexivity.
Qed.

End Decisions.

(** ** Tokens *)

Section Tokens.

Import LiveTest.

Context `{PyRuntime}.

(** C7. Two tokens written as three dot-free segments with the same
    payload segment decode to the same result, whatever their signature
    segments (and whatever their header segments): the signature is not
    read. *)
Theorem decode_ignores_signature (h1 h2 p s1 s2 : string) :
  has_char "." h1 = false -> has_char "." h2 = false ->
  has_char "." p = false ->
  has_char "." s1 = false -> has_char "." s2 = false ->
  decode_jwt_token (h1 ++ "." ++ p ++ "." ++ s1) =
  decode_jwt_token (h2 ++ "." ++ p ++ "." ++ s2).
Proof.
  intros Hh1 Hh2 Hp Hs1 Hs2. unfold decode_jwt_token.
  rewrite (split_token h1 p s1 Hh1 Hp Hs1), (split_token h2 p s2 Hh2 Hp Hs2).
  reflexivity.
Qed.

(** The decoder is the composition of four steps and checks nothing
    else: the token splits at its dots into three segments, the second
    one, padded, is base64 text, the bytes are UTF-8, and the text is
    JSON.  Whatever value the text holds is the result. *)
Lemma decode_of_segments (token h p s : string) (payload_bytes : bytes)
    (text : string) (payload : json) :
  split "." token = [h; p; s] ->
  urlsafe_b64decode (p ++ repeat_char "=" (4 - String.length p mod 4))
  = Ok payload_bytes ->
  bytes_decode payload_bytes = Ok text ->
  json_loads text = Ok payload ->
  decode_jwt_token token = Ok payload.
Proof.
  intros Hsplit Hb64 Hutf Hjson. unfold decode_jwt_token, try_except.
  rewrite Hsplit. cbn [List.length Nat.eqb negb nth].
  rewrite Hb64. cbn [bind]. rewrite Hutf. cbn [bind]. rewrite Hjson. reflexivity.
Qed.

(** Two decoded tokens whose claims agree on the four claims that the
    handler reads are answered alike, and neither with the answer for an
    invalid token. *)
Lemma decoded_tokens_answered_alike (t : timing) (now : string)
    (headers1 headers2 : list (string * string)) (data : json)
    (token1 token2 : string) (claims1 claims2 : dict) :
  headers_get headers1 "Authorization" "" = "Bearer " ++ token1 ->
  headers_get headers2 "Authorization" "" = "Bearer " ++ token2 ->
  decode_jwt_token token1 = Ok (JDict claims1) ->
  decode_jwt_token token2 = Ok (JDict claims2) ->
  (forall k, In k ["sub"; "account_id"; "department"; "access_level"] ->
             lookup k claims1 = lookup k claims2) ->
  handle_opensearch_query_post t now headers1 data =
  handle_opensearch_query_post t now headers2 data /\
  (forall resp,
     handle_opensearch_query_post t now headers2 data = Ok resp ->
     exists a results meta, resp = Evaluated a results meta).
Proof.
  intros Hh1 Hh2 Hd1 Hd2 Hsame.
  rewrite (query_with_bearer t now _ data _ Hh1), (query_with_bearer t now _ data _ Hh2).
  rewrite Hd1, Hd2. split.
  - now apply answer_query_reads.
  - intros resp Hresp.
    destruct (answer_query_result _ _ _ _ _ Hresp)
      as [_ [_ [a [_ [_ [_ [results [meta ->]]]]]]]].
    now exists a, results, meta.
Qed.

(** C2, as the code has it.  No time is checked anywhere between the
    token and the answer.  Take two tokens, each of three dot-separated
    segments whose payload segment, padded, is the base64 text of the
    UTF-8 JSON text of an object, and let the two objects differ in [exp]
    and [iat] only, in any way.  Then [decode_jwt_token] returns the
    claims of each, the query endpoint answers the two requests alike, and
    the answer is never the one for an invalid token. *)
Theorem expiry_claims_are_not_read (t : timing) (now : string)
    (headers1 headers2 : list (string * string)) (data : json)
    (token1 token2 h1 p1 s1 h2 p2 s2 : string) (bytes1 bytes2 : bytes)
    (text1 text2 : string) (claims1 claims2 : dict) :
  headers_get headers1 "Authorization" "" = "Bearer " ++ token1 ->
  headers_get headers2 "Authorization" "" = "Bearer " ++ token2 ->
  split "." token1 = [h1; p1; s1] ->
  split "." token2 = [h2; p2; s2] ->
  urlsafe_b64decode (p1 ++ repeat_char "=" (4 - String.length p1 mod 4)) = Ok bytes1 ->
  urlsafe_b64decode (p2 ++ repeat_char "=" (4 - String.length p2 mod 4)) = Ok bytes2 ->
  bytes_decode bytes1 = Ok text1 ->
  bytes_decode bytes2 = Ok text2 ->
  json_loads text1 = Ok (JDict claims1) ->
  json_loads text2 = Ok (JDict claims2) ->
  (forall k, k <> "exp" -> k <> "iat" -> lookup k claims1 = lookup k claims2) ->
  decode_jwt_token token1 = Ok (JDict claims1) /\
  decode_jwt_token token2 = Ok (JDict claims2) /\
  handle_opensearch_query_post t now headers1 data =
  handle_opensearch_query_post t now headers2 data /\
  (forall resp,
     handle_opensearch_query_post t now headers2 data = Ok resp ->
     exists a results meta, resp = Evaluated a results meta).
Proof.
  intros Hh1 Hh2 Hs1 Hs2 Hb1 Hb2 Hu1 Hu2 Hj1 Hj2 Hsame.
  pose proof (decode_of_segments _ _ _ _ _ _ _ Hs1 Hb1 Hu1 Hj1) as Hd1.
  pose proof (decode_of_segments _ _ _ _ _ _ _ Hs2 Hb2 Hu2 Hj2) as Hd2.
  split; [exact Hd1 | split; [exact Hd2 | ]].
  apply (decoded_tokens_answered_alike t now _ _ data _ _ _ _ Hh1 Hh2 Hd1 Hd2).
  intros k Hk. apply Hsame; intros ->; simpl in Hk;
    repeat (destruct Hk as [Hk | Hk]; [discriminate Hk | ]); exact Hk.
Qed.

(** C8, as the code has it.  No audience is checked anywhere between the
    token and the answer.  Take two tokens, each of three dot-separated
    segments whose payload segment, padded, is the base64 text of the
    UTF-8 JSON text of an object, and let the two objects differ in [aud]
    only, in any way.  Then [decode_jwt_token] returns the claims of each,
    the query endpoint answers the two requests alike, and the answer is
    never the one for an invalid token. *)
Theorem audience_claim_is_not_read (t : timing) (now : string)
    (headers1 headers2 : list (string * string)) (data : json)
    (token1 token2 h1 p1 s1 h2 p2 s2 : string) (bytes1 bytes2 : bytes)
    (text1 text2 : string) (claims1 claims2 : dict) :
  headers_get headers1 "Authorization" "" = "Bearer " ++ token1 ->
  headers_get headers2 "Authorization" "" = "Bearer " ++ token2 ->
  split "." token1 = [h1; p1; s1] ->
  split "." token2 = [h2; p2; s2] ->
  urlsafe_b64decode (p1 ++ repeat_char "=" (4 - String.length p1 mod 4)) = Ok bytes1 ->
  urlsafe_b64decode (p2 ++ repeat_char "=" (4 - String.length p2 mod 4)) = Ok bytes2 ->
  bytes_decode bytes1 = Ok text1 ->
  bytes_decode bytes2 = Ok text2 ->
  json_loads text1 = Ok (JDict claims1) ->
  json_loads text2 = Ok (JDict claims2) ->
  (forall k, k <> "aud" -> lookup k claims1 = lookup k claims2) ->
  decode_jwt_token token1 = Ok (JDict claims1) /\
  decode_jwt_token token2 = Ok (JDict claims2) /\
  handle_opensearch_query_post t now headers1 data =
  handle_opensearch_query_post t now headers2 data /\
  (forall resp,
     handle_opensearch_query_post t now headers2 data = Ok resp ->
     exists a results meta, resp = Evaluated a results meta).
Proof.
  intros Hh1 Hh2 Hs1 Hs2 Hb1 Hb2 Hu1 Hu2 Hj1 Hj2 Hsame.
  pose proof (decode_of_segments _ _ _ _ _ _ _ Hs1 Hb1 Hu1 Hj1) as Hd1.
  pose proof (decode_of_segments _ _ _ _ _ _ _ Hs2 Hb2 Hu2 Hj2) as Hd2.
  split; [exact Hd1 | split; [exact Hd2 | ]].
  apply (decoded_tokens_answered_alike t now _ _ data _ _ _ _ Hh1 Hh2 Hd1 Hd2).
  intros k Hk. apply Hsame; intros ->; simpl in Hk;
    repeat (destruct Hk as [Hk | Hk]; [discriminate Hk | ]); exact Hk.
Qed.

(** Claims that are not a dict make the handler raise once the body has
    been read. *)
Lemma answer_query_without_dict_claims (t : timing) (now : string)
    (body : dict) (token_claims : json) :
  (forall claims, token_claims <> JDict claims) ->
  answer_query t now (JDict body) token_claims = Raise AttributeError.
Proof.
  intros Hnot. unfold answer_query. simpl.
  destruct token_claims; try reflexivity.
  now elim (Hnot d).
Qed.

End Tokens.

(** ** The authorize endpoints *)

Section Authorize.

Lemma alice_may_string (p : string) (action : json) :
  alice_may (JStr p) action =
  Ok (str_in "alice" p && value_in_strs action ["read"; "write"]).
Proof. reflexivity. Qed.

Lemma read_or_write (action : json) :
  value_in_strs action ["read"; "write"] = true <->
  action = JStr "read" \/ action = JStr "write".
Proof.
  rewrite value_in_strs_true. split.
  - intros [s [[<- | [<- | []]] ->]]; tauto.
  - intros [-> | ->]; eexists; (split; [ | reflexivity]); simpl; tauto.
Qed.

(** C5, as the code has it.  When the body is a dict whose [principal]
    is a string, both authorize endpoints answer, with the same decision:
    ALLOW exactly when ["alice"] is part of the principal and the action
    is the string ["read"] or ["write"], DENY in every other case. *)
Theorem authorize_string_principal (now : string) (body : dict) (p : string) :
  dict_get body "principal" (JStr "") = JStr p ->
  let action := dict_get body "action" (JStr "") in
  let permitted :=
    str_in "alice" p = true /\ (action = JStr "read" \/ action = JStr "write") in
  exists r r',
    Production.handle_authorization now (JDict body) = Ok r /\
    Deploy.authorize_data_access now (JDict body) = Ok r' /\
    authz_decision r' = authz_decision r /\
    (authz_decision r = "ALLOW" <-> permitted) /\
    (~ permitted -> authz_decision r = "DENY").
Proof.
  intros Hp action permitted.
  unfold Production.handle_authorization, Deploy.authorize_data_access.
  cbn [py_get bind]. rewrite Hp, alice_may_string. cbn [bind].
  fold action.
  assert (Hperm : permitted <->
                  str_in "alice" p && value_in_strs action ["read"; "write"] = true).
  { unfold permitted. rewrite andb_true_iff, read_or_write. tauto. }
  do 2 eexists. split; [reflexivity | split; [reflexivity | ]].
  cbn [authz_decision]. split; [reflexivity | ].
  rewrite Hperm.
  destruct (str_in "alice" p && value_in_strs action ["read"; "write"]).
  - split; [tauto | intros Hn; now elim Hn].
  - split; [split; discriminate | reflexivity].
Qed.

(** The policy endpoints keep nothing: the answer is made of the clock
    and of the [name] of the body.  The production server adds the name
    of its engine; the other fields are the same on the two servers. *)
Lemma policy_creation_answers (seconds : Z) (now : string) (body : dict) :
  Production.handle_policy_creation seconds now (JDict body) =
  Ok {| policy_id := "policy_" ++ str_of_int seconds;
        policy_name := dict_get body "name" JNull;
        policy_status := "created";
        policy_timestamp := now;
        policy_cedarling_engine := Some "embedded-uniffi" |} /\
  Deploy.create_policy seconds now (JDict body) =
  Ok {| policy_id := "policy_" ++ str_of_int seconds;
        policy_name := dict_get body "name" JNull;
        policy_status := "created";
        policy_timestamp := now;
        policy_cedarling_engine := None |}.
Proof. split; reflexivity. Qed.

End Authorize.

(** ** Login *)

Section Login.

Import LiveTest.

Context `{PyRuntime}.

(** The two login handlers are the same function. *)
Lemma live_demo_login (clk : clock) (data : json) :
  LiveDemo.handle_login clk data = handle_login_post clk data.
Proof. reflexivity. Qed.

Lemma get_user_info_hashable (email : json) :
  hashable email = true ->
  exists user,
    get_user_info email = Ok user /\
    ((forall s, email = JStr s -> find_user s users = None) -> user = unknown_user).
Proof.
  intros Hhash. unfold get_user_info. rewrite Hhash.
  destruct email as [ | | | | s | | ]; try (exists unknown_user; split; auto; fail).
  destruct (find_user s users) as [u | ] eqn:Hfind.
  - exists u. split; [reflexivity | ].
    intros Hnone. rewrite (Hnone s eq_refl) in Hfind. discriminate Hfind.
  - exists unknown_user. split; auto.
Qed.

(** C10, as the code has it.  When the body is a dict whose [email] can
    be hashed (a string, a number, a boolean, null, or no [email] at
    all), whatever the [account_id]: both login handlers answer with
    [success] true and a session that holds the email, the account, the
    department and access level of the user and the two tokens minted
    from the four clock readings of the request; an email outside the
    table gets the entry of the unknown user. *)
Theorem login_succeeds (clk : clock) (body : dict) :
  let email := dict_get body "email" (JStr "") in
  let account_id := dict_get body "account_id" (JStr "") in
  hashable email = true ->
  exists user,
    get_user_info email = Ok user /\
    ((forall s, email = JStr s -> find_user s users = None) ->
     user = {| name := "Unknown User"; department := "unknown";
               access_level := "none"; roles := [] |}) /\
    let response :=
      {| success := true;
         login_session :=
           {| session_email := email;
              session_account_id := account_id;
              session_department := department user;
              session_access_level := access_level user;
              access_token :=
                create_jwt_token jwt_header
                  (access_token_payload (clk 0%nat) (clk 1%nat) email account_id user);
              id_token :=
                create_jwt_token jwt_header
                  (id_token_payload (clk 2%nat) (clk 3%nat) email user) |} |} in
    handle_login_post clk (JDict body) = Ok response /\
    LiveDemo.handle_login clk (JDict body) = Ok response.
Proof.
  intros email account_id Hhash.
  destruct (get_user_info_hashable email Hhash) as [user [Huser Hunknown]].
  exists user. split; [exact Huser | split; [exact Hunknown | ]].
  cbv zeta.
  assert (Hlogin : handle_login_post clk (JDict body) =
                   Ok {| success := true;
                         login_session :=
                           {| session_email := email;
                              session_account_id := account_id;
                              session_department := department user;
                              session_access_level := access_level user;
                              access_token :=
                                create_jwt_token jwt_header
                                  (access_token_payload (clk 0%nat) (clk 1%nat)
                                     email account_id user);
                              id_token :=
                                create_jwt_token jwt_header
                                  (id_token_payload (clk 2%nat) (clk 3%nat) email user) |} |}).
  { unfold handle_login_post. simpl. fold email. fold account_id.
    rewrite Huser. reflexivity. }
  split; [exact Hlogin | ].
  rewrite <- Hlogin. apply live_demo_login.
Qed.

End Login.

(** ** The handlers on the example requests *)

Section Runs.

Import LiveTest Examples.

(** On the concrete runtime the login endpoint mints, byte for byte, the
    token that CPython mints for the same request and clock, and the
    decoder reads its claims back. *)
Lemma alice_token_is_minted :
  exists resp,
    @handle_login_post Fixture.runtime still_clock alice_login = Ok resp /\
    access_token (login_session resp) = alice_token /\
    decode (access_token (login_session resp)) = Ok (JDict alice_claims).
Proof.
  eexists. split; [reflexivity | ]. split; vm_compute; reflexivity.
Qed.

Lemma example_tokens_are_signed :
  @create_jwt_token Fixture.runtime jwt_header (JDict expired_claims) = expired_token /\
  @create_jwt_token Fixture.runtime jwt_header (JDict foreign_audience_claims)
  = foreign_audience_token /\
  @create_jwt_token Fixture.runtime jwt_header (JList []) = list_token.
Proof. repeat split; vm_compute; reflexivity. Qed.

(** Bob's token is the one that the login endpoint mints for him. *)
Lemma bob_token_is_minted :
  exists resp,
    @handle_login_post Fixture.runtime still_clock bob_login = Ok resp /\
    access_token (login_session resp) = bob_token.
Proof.
  eexists. split; [reflexivity | ]. vm_compute. reflexivity.
Qed.

(** C1, at the failing request.  Bob's token carries the [account_id]
    claim [acct_2]; the body asks for the customer data of [acct_1], in
    its query and in its [user_context]; the query is classified
    [customer_data].  The two accounts differ, and the endpoint answers
    ALLOW under [AccountIsolation], with results: the context that the
    policy compares the claim with is filled from the claim itself, and
    the account of the request is never read. *)
Theorem foreign_account_request_is_allowed :
  decode bob_token = Ok (JDict bob_claims) /\
  account_claim bob_claims = JStr "acct_2" /\
  requested_account customer_query = JStr "acct_1" /\
  py_eq (account_claim bob_claims) (requested_account customer_query) = false /\
  (exists query,
     py_get customer_query "query" (JDict []) = Ok query /\
     @classify_query Fixture.runtime query = "customer_data") /\
  exists a r meta,
    run_query (bearer bob_token) customer_query = Ok (Evaluated a (Some r) meta) /\
    decision a = "ALLOW" /\
    reason a = "Account ID matches user account" /\
    policies_applied a = ["CustomerDataAccess"; "AccountIsolation"] /\
    account_match a = true.
Proof.
  split; [vm_compute; reflexivity | ].
  split; [reflexivity | ].
  split; [reflexivity | ].
  split; [reflexivity | ].
  split; [eexists; split; [reflexivity | vm_compute; reflexivity] | ].
  destruct (run_query (bearer bob_token) customer_query) as [resp | e] eqn:Hrun;
    vm_compute in Hrun; [ | discriminate Hrun].
  injection Hrun as <-. do 3 eexists.
  split; [reflexivity | ].
  split; [reflexivity | split; [reflexivity | split; reflexivity]].
Qed.

(** A request of type [general] falls through every branch. *)
Lemma unmatched_query_type_is_denied_witness :
  exists r,
    evaluate_tbac_policy a_timing general_request (JDict alice_claims) = Ok r /\
    decision r = "DENY" /\ policies_applied r = [].
Proof.
  destruct (unmatched_query_type_is_denied a_timing general_request (JDict alice_claims))
    as [Hevery Hsome].
  - simpl. intros category Hin Heq.
    repeat (destruct Hin as [<- | Hin]; [discriminate Heq | ]). exact Hin.
  - destruct (Hsome alice_claims "engineering" ltac:(reflexivity) ltac:(reflexivity))
      as [r Hr].
    exists r. split; [exact Hr | ].
    destruct (Hevery r Hr) as [Hdeny [Hnone _]]. split; assumption.
Defined.

(** An engineer with full access reads the engineering documents. *)
Lemma decision_invariant_witness :
  exists r,
    evaluate_tbac_policy a_timing engineering_request (JDict alice_claims) = Ok r /\
    decision r = "ALLOW" /\ policies_applied r <> [].
Proof.
  destruct (evaluate_tbac_policy a_timing engineering_request (JDict alice_claims))
    as [r | e] eqn:Hr.
  - exists r. split; [reflexivity | ].
    pose proof (decision_invariant a_timing engineering_request (JDict alice_claims) r Hr)
      as [_ [Hallow _]].
    vm_compute in Hr. injection Hr as <-.
    split; [reflexivity | apply Hallow; reflexivity].
  - vm_compute in Hr. discriminate Hr.
Defined.

(** Alice's token with a forged signature decodes like the signed one. *)
Lemma decode_ignores_signature_witness :
  decode alice_token =
  decode (header_segment ++ "." ++ alice_payload ++ "." ++ "forged") /\
  decode alice_token = Ok (JDict alice_claims).
Proof.
  split.
  - apply (@decode_ignores_signature Fixture.runtime
             header_segment header_segment alice_payload alice_signature "forged");
      vm_compute; reflexivity.
  - vm_compute. reflexivity.
Defined.

(** C2, counterexample.  The claims of the token say that it expired one
    second into 1970; it decodes all the same, and the query endpoint
    allows the public query it carries. *)
Lemma expired_token_is_accepted :
  expired_at expired_claims 1717583400 = true /\
  decode expired_token = Ok (JDict expired_claims) /\
  exists a results meta,
    run_query (bearer expired_token) public_query = Ok (Evaluated a results meta) /\
    decision a = "ALLOW".
Proof.
  split; [reflexivity | ].
  split; [vm_compute; reflexivity | ].
  do 3 eexists. split; vm_compute; reflexivity.
Qed.

(** The token minted in 2024 and the one that expired in 1970 both
    decode, and their customer queries are answered alike. *)
Lemma expiry_claims_are_not_read_witness :
  decode alice_token = Ok (JDict alice_claims) /\
  decode expired_token = Ok (JDict expired_claims) /\
  run_query (bearer alice_token) customer_query =
  run_query (bearer expired_token) customer_query /\
  (forall resp,
     run_query (bearer expired_token) customer_query = Ok resp ->
     exists a results meta, resp = Evaluated a results meta).
Proof.
  apply (@expiry_claims_are_not_read Fixture.runtime a_timing a_stamp
           (bearer alice_token) (bearer expired_token) customer_query
           alice_token expired_token
           header_segment alice_payload alice_signature
           header_segment expired_payload expired_signature
           (payload_bytes (JDict alice_claims)) (payload_bytes (JDict expired_claims))
           (payload_text (JDict alice_claims)) (payload_text (JDict expired_claims))
           alice_claims expired_claims);
    try (vm_compute; reflexivity).
  intros k Hexp Hiat. simpl.
  destruct (String.eqb_spec k "exp") as [Heq | _]; [contradiction | ].
  destruct (String.eqb_spec k "iat") as [Heq | _]; [contradiction | ].
  reflexivity.
Defined.

(** C8, counterexample.  The token names the audience
    [some-other-service], not the [opensearch-cedarling] that the login
    endpoint writes; it decodes all the same, and the query endpoint
    allows the public query it carries. *)
Lemma foreign_audience_is_accepted :
  audience_differs foreign_audience_claims "opensearch-cedarling" = true /\
  audience_differs foreign_audience_claims "expected-service" = true /\
  decode foreign_audience_token = Ok (JDict foreign_audience_claims) /\
  exists a results meta,
    run_query (bearer foreign_audience_token) public_query
    = Ok (Evaluated a results meta) /\
    decision a = "ALLOW".
Proof.
  split; [reflexivity | ].
  split; [reflexivity | ].
  split; [vm_compute; reflexivity | ].
  do 3 eexists. split; vm_compute; reflexivity.
Qed.

(** The token for this service and the one for another audience both
    decode, and their customer queries are answered alike. *)
Lemma audience_claim_is_not_read_witness :
  decode alice_token = Ok (JDict alice_claims) /\
  decode foreign_audience_token = Ok (JDict foreign_audience_claims) /\
  run_query (bearer alice_token) customer_query =
  run_query (bearer foreign_audience_token) customer_query /\
  (forall resp,
     run_query (bearer foreign_audience_token) customer_query = Ok resp ->
     exists a results meta, resp = Evaluated a results meta).
Proof.
  apply (@audience_claim_is_not_read Fixture.runtime a_timing a_stamp
           (bearer alice_token) (bearer foreign_audience_token) customer_query
           alice_token foreign_audience_token
           header_segment alice_payload alice_signature
           header_segment foreign_audience_payload foreign_audience_signature
           (payload_bytes (JDict alice_claims))
           (payload_bytes (JDict foreign_audience_claims))
           (payload_text (JDict alice_claims))
           (payload_text (JDict foreign_audience_claims))
           alice_claims foreign_audience_claims);
    try (vm_compute; reflexivity).
  intros k Haud. simpl.
  destruct (String.eqb_spec k "aud") as [Heq | _]; [contradiction | ].
  reflexivity.
Defined.

(** C6, at the failing request.  The token carries a valid signature and
    the JSON text of an empty list as its payload; it decodes, the handler
    then asks the list for its [sub] claim outside the [try] block, and
    the [AttributeError] leaves the handler: no DENY is sent. *)
Theorem list_claims_raise_in_query_endpoint :
  decode list_token = Ok (JList []) /\
  run_query (bearer list_token) public_query = Raise AttributeError.
Proof. split; vm_compute; reflexivity. Qed.

(** C5, counterexample.  The principal is a JSON array that holds the
    string ["alice"]: the test is then one of membership, both endpoints
    answer ALLOW, and ["alice"] is no substring of the principal field.
    With a number as principal the test raises and no decision is sent. *)
Lemma alice_in_list_principal_is_allowed :
  let body :=
    JDict [ ("principal", JList [JStr "alice"]); ("action", JStr "read");
            ("resource", JStr "customer-data") ] in
  let numbered :=
    JDict [ ("principal", JInt 5); ("action", JStr "read");
            ("resource", JStr "customer-data") ] in
  occurs_as_substring "alice" (JList [JStr "alice"]) = false /\
  (exists r, Production.handle_authorization a_stamp body = Ok r /\
             authz_decision r = "ALLOW") /\
  (exists r, Deploy.authorize_data_access a_stamp body = Ok r /\
             authz_decision r = "ALLOW") /\
  Production.handle_authorization a_stamp numbered = Raise TypeError /\
  Deploy.authorize_data_access a_stamp numbered = Raise TypeError.
Proof.
  cbv zeta. split; [reflexivity | ].
  split; [eexists; split; reflexivity | ].
  split; [eexists; split; reflexivity | ].
  split; reflexivity.
Qed.

(** Alice may write. *)
Lemma authorize_string_principal_witness :
  exists r,
    Production.handle_authorization a_stamp
      (JDict [ ("principal", JStr "user:alice@engineering.corp");
               ("action", JStr "write"); ("resource", JStr "customer-data") ]) = Ok r /\
    authz_decision r = "ALLOW".
Proof.
  destruct (authorize_string_principal a_stamp
              [ ("principal", JStr "user:alice@engineering.corp");
                ("action", JStr "write"); ("resource", JStr "customer-data") ]
              "user:alice@engineering.corp" ltac:(reflexivity))
    as [r [_ [Hr [_ [_ [Hallow _]]]]]].
  exists r. split; [exact Hr | ].
  apply Hallow. split; [reflexivity | right; reflexivity].
Defined.

(** C10, counterexample.  The body is a JSON object whose [email] is an
    empty array: the table lookup cannot hash it, and both login handlers
    raise instead of answering. *)
Lemma login_with_list_email_raises :
  let body := JDict [("email", JList []); ("account_id", JStr "acct_1")] in
  @handle_login_post Fixture.runtime a_clock body = Raise TypeError /\
  @LiveDemo.handle_login Fixture.runtime a_clock body = Raise TypeError.
Proof. split; reflexivity. Qed.

(** An email outside the table logs in as the unknown user. *)
Lemma login_succeeds_witness :
  exists resp,
    @handle_login_post Fixture.runtime a_clock
      (JDict [("email", JStr "nobody@nowhere.org"); ("account_id", JStr "")]) = Ok resp /\
    success resp = true /\
    session_department (login_session resp) = "unknown" /\
    session_access_level (login_session resp) = "none".
Proof.
  destruct (@login_succeeds Fixture.runtime a_clock
              [("email", JStr "nobody@nowhere.org"); ("account_id", JStr "")]
              ltac:(reflexivity))
    as [user [_ [Hunknown [Hresp _]]]].
  eexists. split; [exact Hresp | ].
  rewrite Hunknown.
  - repeat split.
  - intros s Hs. injection Hs as <-. reflexivity.
Defined.

End Runs.

(** * Further properties of the servers *)

(** ** More on the query endpoint *)

Section QueryEndpointMore.

Import LiveTest.

Context `{PyRuntime}.

Variable t : timing.
Variable now : string.

Lemma startswith_drop (p s : string) :
  startswith s p = true -> s = p ++ drop (String.length p) s.
Proof.
  revert s. induction p as [| b p IH]; intros s Hs; simpl in *.
  - reflexivity.
  - destruct s as [| a s]; [discriminate Hs | ].
    apply andb_true_iff in Hs as [Hab Hrest].
    apply Ascii.eqb_eq in Hab. subst b. f_equal. exact (IH s Hrest).
Qed.

(** The response of the handler once the token is decoded, in full. *)
Lemma answer_query_shape (data token_claims : json) (resp : query_response) :
  answer_query t now data token_claims = Ok resp ->
  exists body claims a,
    data = JDict body /\ token_claims = JDict claims /\
    evaluate_tbac_policy t (built_request body claims) token_claims = Ok a /\
    let index_name := dict_get body "index" (JStr "") in
    let query := dict_get body "query" (JDict []) in
    let meta := {| meta_index := index_name;
                   query_classification := classify_query query;
                   meta_timestamp := now |} in
    (decision a = "ALLOW" /\
     exists r, simulate_opensearch_query index_name query token_claims = Ok r /\
               resp = Evaluated a (Some r) meta)
    \/
    (decision a <> "ALLOW" /\ resp = Evaluated a None meta).
Proof.
  unfold answer_query.
  destruct data as [ | | | | | | body]; simpl; try discriminate.
  destruct token_claims as [ | | | | | | claims]; simpl; try discriminate.
  fold (built_request body claims).
  destruct (evaluate_tbac_policy t (built_request body claims) (JDict claims))
    as [a | e] eqn:Heval; simpl; try discriminate.
  intros Hresp. exists body, claims, a.
  split; [reflexivity | split; [reflexivity | split; [exact Heval | ]]].
  destruct (String.eqb_spec (decision a) "ALLOW") as [Hallow | Hdeny].
  - left. split; [exact Hallow | ].
    destruct (simulate_opensearch_query _ _ _) as [r | e]; simpl in Hresp;
      try discriminate.
    injection Hresp as <-. exists r. split; reflexivity.
  - right. split; [exact Hdeny | ].
    simpl in Hresp. now injection Hresp as <-.
Qed.

(** X1. Search results travel with an ALLOW only: a response that went
    through the evaluator carries results exactly when its decision is
    ALLOW, and a response that did not carries the decision DENY. *)
Theorem results_only_when_allowed (headers : list (string * string))
    (data : json) (resp : query_response) :
  handle_opensearch_query_post t now headers data = Ok resp ->
  match resp with
  | Rejected _ d _ => d = "DENY"
  | Evaluated a results _ => results <> None <-> decision a = "ALLOW"
  end.
Proof.
  unfold handle_opensearch_query_post.
  destruct (negb _).
  - intros Hresp. now injection Hresp as <-.
  - destruct (decode_jwt_token _) as [token_claims | e].
    + intros Hresp.
      destruct (answer_query_shape _ _ _ Hresp)
        as [body [claims [a [_ [_ [_ [[Hallow [r [_ ->]]] | [Hdeny ->]]]]]]]].
      * split; [intros _; exact Hallow | discriminate].
      * split; [intros Hsome; now elim Hsome | intros Hallow; now elim Hdeny].
    + intros Hresp. now injection Hresp as <-.
Qed.

(** X2. No ALLOW without a token: when the decision of a response is
    ALLOW, the Authorization header reads "Bearer " followed by a token
    that decodes to a JSON object, and the body is a JSON object. *)
Theorem allow_needs_decoded_token (headers : list (string * string))
    (data : json) (resp : query_response) :
  handle_opensearch_query_post t now headers data = Ok resp ->
  response_decision resp = "ALLOW" ->
  exists token claims body,
    headers_get headers "Authorization" "" = "Bearer " ++ token /\
    decode_jwt_token token = Ok (JDict claims) /\
    data = JDict body.
Proof.
  unfold handle_opensearch_query_post.
  destruct (startswith _ "Bearer ") eqn:Hbearer; simpl.
  - destruct (decode_jwt_token _) as [token_claims | e] eqn:Hdec.
    + intros Hresp _.
      destruct (answer_query_shape _ _ _ Hresp)
        as [body [claims [a [-> [-> _]]]]].
      exists (drop 7 (headers_get headers "Authorization" "")), claims, body.
      split; [exact (startswith_drop _ _ Hbearer) | ].
      split; [exact Hdec | reflexivity].
    + intros Hresp Hallow. injection Hresp as <-. discriminate Hallow.
  - intros Hresp Hallow. injection Hresp as <-. discriminate Hallow.
Qed.

(** X3. Of the request body the handler uses [index] and [query] and
    nothing else: two JSON-object bodies that agree on both are answered
    alike, whatever their [user_context]. *)
Theorem body_is_read_through_index_and_query (headers : list (string * string))
    (body1 body2 : dict) :
  dict_get body1 "index" (JStr "") = dict_get body2 "index" (JStr "") ->
  dict_get body1 "query" (JDict []) = dict_get body2 "query" (JDict []) ->
  handle_opensearch_query_post t now headers (JDict body1) =
  handle_opensearch_query_post t now headers (JDict body2).
Proof.
  intros Hindex Hquery. unfold handle_opensearch_query_post.
  destruct (negb _); [reflexivity | ].
  destruct (decode_jwt_token _) as [token_claims | e]; [ | reflexivity].
  unfold answer_query. cbn [py_get bind].
  rewrite Hindex, Hquery. reflexivity.
Qed.

(** X4. A query that [classify_query] calls [general] is denied whatever
    the token says: every response carries DENY with the reason of the
    default, no applied policy and no results; and a response is produced
    whenever the claims are a dict with a string [department]. *)
Theorem general_query_is_denied (headers : list (string * string))
    (body : dict) (token : string) (token_claims : json) :
  headers_get headers "Authorization" "" = "Bearer " ++ token ->
  decode_jwt_token token = Ok token_claims ->
  classify_query (dict_get body "query" (JDict [])) = "general" ->
  (forall resp,
     handle_opensearch_query_post t now headers (JDict body) = Ok resp ->
     exists a meta,
       resp = Evaluated a None meta /\
       decision a = "DENY" /\ policies_applied a = [] /\
       reason a = "Default deny")
  /\
  (forall claims dep,
     token_claims = JDict claims ->
     dict_get claims "department" (JStr "") = JStr dep ->
     exists resp, handle_opensearch_query_post t now headers (JDict body) = Ok resp).
Proof.
  intros Hhead Hdec Hclass.
  rewrite (query_with_bearer t now _ _ _ Hhead), Hdec.
  assert (Hbranch : forall claims a,
            evaluate_tbac_policy t (built_request body claims) (JDict claims) = Ok a ->
            decision a = "DENY" /\ policies_applied a = [] /\ reason a = "Default deny").
  { intros claims a Heval.
    destruct (evaluate_result _ _ _ _ Heval) as [claims' [Hsame [Hb _]]].
    rewrite built_request_query_type, Hclass in Hb.
    rewrite branches_default in Hb by reflexivity.
    now injection Hb as <- <- <-. }
  split.
  - intros resp Hresp.
    destruct (answer_query_shape _ _ _ Hresp)
      as [body' [claims [a [Hbody [-> [Heval Hcases]]]]]].
    injection Hbody as <-.
    destruct (Hbranch claims a Heval) as [Hdeny [Hnone Hwhy]].
    destruct Hcases as [[Hallow _] | [_ ->]].
    + rewrite Hdeny in Hallow. discriminate Hallow.
    + do 2 eexists. split; [reflexivity | ]. split; [exact Hdeny | split; assumption].
  - intros claims dep -> Hdep.
    destruct (evaluate_returns t (built_request body claims) claims dep Hdep) as [a Ha].
    destruct (Hbranch claims a Ha) as [Hdeny _].
    unfold answer_query. cbn [py_get bind].
    fold (built_request body claims). rewrite Ha. cbn [bind].
    rewrite Hdeny. simpl. eexists. reflexivity.
Qed.

End QueryEndpointMore.

(** ** Classification of queries *)

Section Classification.

Import LiveTest.

Context `{PyRuntime}.

(** X5. [classify_query] answers with one of six names, and with
    [general] exactly when none of its nine keywords occurs in the
    lower-cased JSON text of the query. *)
Theorem classify_query_general (query : json) :
  In (classify_query query)
     ["confidential"; "financial"; "engineering"; "customer_data"; "public"; "general"]
  /\
  (classify_query query = "general" <->
   forall word, In word keywords -> str_in word (lower (json_dumps query)) = false).
Proof.
  unfold classify_query, keywords.
  set (text := lower (json_dumps query)).
  destruct (str_in "confidential" text) eqn:H1;
    [split; [simpl; tauto | split; [discriminate | ]];
     intros Hnone; rewrite (Hnone "confidential") in H1 by (simpl; tauto);
     discriminate H1 | ].
  destruct (str_in "admin" text) eqn:H2;
    [split; [simpl; tauto | split; [discriminate | ]];
     intros Hnone; rewrite (Hnone "admin") in H2 by (simpl; tauto);
     discriminate H2 | ].
  destruct (str_in "financial" text) eqn:H3;
    [split; [simpl; tauto | split; [discriminate | ]];
     intros Hnone; rewrite (Hnone "financial") in H3 by (simpl; tauto);
     discriminate H3 | ].
  destruct (str_in "finance" text) eqn:H4;
    [split; [simpl; tauto | split; [discriminate | ]];
     intros Hnone; rewrite (Hnone "finance") in H4 by (simpl; tauto);
     discriminate H4 | ].
  destruct (str_in "engineering" text) eqn:H5;
    [split; [simpl; tauto | split; [discriminate | ]];
     intros Hnone; rewrite (Hnone "engineering") in H5 by (simpl; tauto);
     discriminate H5 | ].
  destruct (str_in "technical" text) eqn:H6;
    [split; [simpl; tauto | split; [discriminate | ]];
     intros Hnone; rewrite (Hnone "technical") in H6 by (simpl; tauto);
     discriminate H6 | ].
  destruct (str_in "customer" text) eqn:H7;
    [split; [simpl; tauto | split; [discriminate | ]];
     intros Hnone; rewrite (Hnone "customer") in H7 by (simpl; tauto);
     discriminate H7 | ].
  destruct (str_in "account_id" text) eqn:H8;
    [split; [simpl; tauto | split; [discriminate | ]];
     intros Hnone; rewrite (Hnone "account_id") in H8 by (simpl; tauto);
     discriminate H8 | ].
  destruct (str_in "public" text) eqn:H9;
    [split; [simpl; tauto | split; [discriminate | ]];
     intros Hnone; rewrite (Hnone "public") in H9 by (simpl; tauto);
     discriminate H9 | ].
  split; [simpl; tauto | split; [ | reflexivity]].
  intros _ word Hin. simpl in Hin.
  repeat (destruct Hin as [<- | Hin]; [assumption | ]). contradiction.
Qed.

(** X6. The keywords are ranked: a query is classified [customer_data]
    exactly when its text mentions [customer] or [account_id] and none of
    the six words that stand for confidential, financial or engineering
    data. *)
Theorem classify_query_customer_data (query : json) :
  let text := lower (json_dumps query) in
  classify_query query = "customer_data" <->
  (str_in "customer" text = true \/ str_in "account_id" text = true) /\
  forall word,
    In word ["confidential"; "admin"; "financial"; "finance"; "engineering"; "technical"] ->
    str_in word text = false.
Proof.
  intros text. unfold classify_query. fold text.
  destruct (str_in "confidential" text) eqn:H1;
    [split; [discriminate | intros [_ Hn]; rewrite (Hn "confidential") in H1 by (simpl; tauto);
                            discriminate H1] | ].
  destruct (str_in "admin" text) eqn:H2;
    [split; [discriminate | intros [_ Hn]; rewrite (Hn "admin") in H2 by (simpl; tauto);
                            discriminate H2] | ].
  destruct (str_in "financial" text) eqn:H3;
    [split; [discriminate | intros [_ Hn]; rewrite (Hn "financial") in H3 by (simpl; tauto);
                            discriminate H3] | ].
  destruct (str_in "finance" text) eqn:H4;
    [split; [discriminate | intros [_ Hn]; rewrite (Hn "finance") in H4 by (simpl; tauto);
                            discriminate H4] | ].
  destruct (str_in "engineering" text) eqn:H5;
    [split; [discriminate | intros [_ Hn]; rewrite (Hn "engineering") in H5 by (simpl; tauto);
                            discriminate H5] | ].
  destruct (str_in "technical" text) eqn:H6;
    [split; [discriminate | intros [_ Hn]; rewrite (Hn "technical") in H6 by (simpl; tauto);
                            discriminate H6] | ].
  assert (Hnone : forall word,
             In word ["confidential"; "admin"; "financial"; "finance";
                      "engineering"; "technical"] ->
             str_in word text = false).
  { intros word Hin. simpl in Hin.
    repeat (destruct Hin as [<- | Hin]; [assumption | ]). contradiction. }
  simpl.
  destruct (str_in "customer" text); simpl.
  - split; [intros _; split; [now left | exact Hnone] | reflexivity].
  - destruct (str_in "account_id" text); simpl.
    + split; [intros _; split; [now right | exact Hnone] | reflexivity].
    + split.
      * destruct (str_in "public" text); discriminate.
      * intros [[Hc | Ha] _]; discriminate.
Qed.

End Classification.

(** ** Errors and reach of the evaluator *)

Section EvaluatorMore.

Import LiveTest.

Context `{PyRuntime}.

Variable t : timing.

Lemma evaluate_raise_cases (request : auth_request) (token_claims : json) (e : exc) :
  evaluate_tbac_policy t request token_claims = Raise e <->
  (is_dict token_claims = false /\ e = AttributeError) \/
  (exists claims,
     token_claims = JDict claims /\
     is_str (dict_get claims "department" (JStr "")) = false /\
     e = TypeError).
Proof.
  unfold evaluate_tbac_policy. split.
  - destruct token_claims as [ | | | | | | claims]; simpl;
      try (intros He; injection He as <-; left; split; reflexivity).
    destruct (policy_branches _ _ _ _ _) as [[dcs pol] why].
    destruct (dict_get claims "department" (JStr "")) eqn:Hdep; simpl;
      try discriminate;
      intros He; injection He as <-; right; exists claims; rewrite Hdep;
      repeat split.
  - intros [[Hnot ->] | [claims [-> [Hdep ->]]]].
    + destruct token_claims; try reflexivity. discriminate Hnot.
    + simpl. destruct (policy_branches _ _ _ _ _) as [[dcs pol] why].
      destruct (dict_get claims "department" (JStr "")); try reflexivity.
      discriminate Hdep.
Qed.

(** X7. The evaluator raises in two cases and no other: claims that are
    not a dict give [AttributeError], and a dict whose [department] is not
    a string gives [TypeError] - whatever the query type, also for public
    data. *)
Theorem evaluate_raises_iff (request : auth_request) (token_claims : json) (e : exc) :
  evaluate_tbac_policy t request token_claims = Raise e <->
  (is_dict token_claims = false /\ e = AttributeError) \/
  (exists claims,
     token_claims = JDict claims /\
     is_str (dict_get claims "department" (JStr "")) = false /\
     e = TypeError).
Proof. exact (evaluate_raise_cases request token_claims e). Qed.

(** The simulated search answers exactly for an index that [in] can
    search. *)
Lemma simulate_returns (index_name query : json) (claims : dict) :
  searchable index_name = true ->
  exists r, simulate_opensearch_query index_name query (JDict claims) = Ok r.
Proof.
  intros Hs. unfold simulate_opensearch_query. cbn [py_get bind].
  destruct index_name; try discriminate Hs; cbn [str_in_value bind];
    repeat match goal with
           | |- context [if ?b then _ else _] => destruct b; cbn [bind]
           end; eexists; reflexivity.
Qed.

Lemma simulate_raises (index_name query : json) (claims : dict) :
  searchable index_name = false ->
  simulate_opensearch_query index_name query (JDict claims) = Raise TypeError.
Proof.
  intros Hs. unfold simulate_opensearch_query. cbn [py_get bind].
  destruct index_name; try discriminate Hs; reflexivity.
Qed.

End EvaluatorMore.

(** ** What the query endpoint grants and when it fails *)

Section QueryEndpointGrants.

Import LiveTest.

Context `{PyRuntime}.

Variable t : timing.
Variable now : string.

(** The response for an allowed request with a string index. *)
Lemma answer_query_allowed (body claims : dict) (a : auth_result) (idx : string) :
  evaluate_tbac_policy t (built_request body claims) (JDict claims) = Ok a ->
  decision a = "ALLOW" ->
  dict_get body "index" (JStr "") = JStr idx ->
  exists r meta,
    answer_query t now (JDict body) (JDict claims) = Ok (Evaluated a (Some r) meta).
Proof.
  intros Heval Hallow Hidx.
  destruct (simulate_returns (JStr idx) (dict_get body "query" (JDict [])) claims eq_refl)
    as [r Hr].
  unfold answer_query. cbn [py_get bind].
  fold (built_request body claims). rewrite Heval. cbn [bind].
  rewrite Hallow, Hidx, Hr. simpl. do 2 eexists. reflexivity.
Qed.

(** X8. Public data is open to every bearer of a decodable token: when
    the query is classified [public], the claims are a JSON object whose
    [department] is a string or missing, and the index is a string, the
    endpoint answers ALLOW under [PublicDataAccess] and sends results -
    whatever the other claims, the signature or the expiry of the
    token. *)
Theorem public_query_is_allowed (headers : list (string * string))
    (body claims : dict) (token dep idx : string) :
  headers_get headers "Authorization" "" = "Bearer " ++ token ->
  decode_jwt_token token = Ok (JDict claims) ->
  classify_query (dict_get body "query" (JDict [])) = "public" ->
  dict_get claims "department" (JStr "") = JStr dep ->
  dict_get body "index" (JStr "") = JStr idx ->
  exists a r meta,
    handle_opensearch_query_post t now headers (JDict body)
    = Ok (Evaluated a (Some r) meta) /\
    decision a = "ALLOW" /\ policies_applied a = ["PublicDataAccess"].
Proof.
  intros Hhead Hdec Hclass Hdep Hidx.
  rewrite (query_with_bearer t now _ _ _ Hhead), Hdec.
  destruct (evaluate_returns t (built_request body claims) claims dep Hdep) as [a Ha].
  destruct (evaluate_result _ _ _ _ Ha) as [claims' [_ [Hb _]]].
  rewrite built_request_query_type, Hclass in Hb.
  injection Hb as Hd Hp _.
  destruct (answer_query_allowed body claims a idx Ha (eq_sym Hd) Hidx) as [r [meta Hr]].
  exists a, r, meta. split; [exact Hr | split; [now symmetry | now symmetry]].
Qed.

(** X9. The account test of the endpoint cannot fail for a string
    account: when the query is classified [customer_data] and the
    [account_id] claim is a string (or missing), the endpoint answers
    ALLOW under [CustomerDataAccess] and [AccountIsolation], whatever
    account the query or the [user_context] of the body names. *)
Theorem customer_query_is_allowed (headers : list (string * string))
    (body claims : dict) (token acct dep idx : string) :
  headers_get headers "Authorization" "" = "Bearer " ++ token ->
  decode_jwt_token token = Ok (JDict claims) ->
  classify_query (dict_get body "query" (JDict [])) = "customer_data" ->
  dict_get claims "account_id" (JStr "") = JStr acct ->
  dict_get claims "department" (JStr "") = JStr dep ->
  dict_get body "index" (JStr "") = JStr idx ->
  exists a r meta,
    handle_opensearch_query_post t now headers (JDict body)
    = Ok (Evaluated a (Some r) meta) /\
    decision a = "ALLOW" /\
    policies_applied a = ["CustomerDataAccess"; "AccountIsolation"] /\
    account_match a = true.
Proof.
  intros Hhead Hdec Hclass Hacct Hdep Hidx.
  rewrite (query_with_bearer t now _ _ _ Hhead), Hdec.
  destruct (evaluate_returns t (built_request body claims) claims dep Hdep) as [a Ha].
  destruct (evaluate_result _ _ _ _ Ha) as [claims' [Hsame [Hb Hmatch]]].
  injection Hsame as <-.
  rewrite built_request_query_type, Hclass, branches_customer_data in Hb.
  rewrite built_request_account, Hacct in Hb, Hmatch.
  simpl in Hb, Hmatch. rewrite String.eqb_refl in Hb, Hmatch.
  injection Hb as Hd Hp _.
  destruct (answer_query_allowed body claims a idx Ha (eq_sym Hd) Hidx) as [r [meta Hr]].
  exists a, r, meta.
  split; [exact Hr | split; [now symmetry | split; [now symmetry | exact Hmatch]]].
Qed.

(** X10. The endpoint raises in these cases and no other, all of them
    after the token has been decoded: [AttributeError] when the body or
    the claims are not a JSON object; [TypeError] when the [department]
    claim is not a string, or when the decision is ALLOW and the index is
    neither a string, a list nor a dict. *)
Theorem query_endpoint_raises_iff (headers : list (string * string))
    (data : json) (e : exc) :
  handle_opensearch_query_post t now headers data = Raise e <->
  exists token token_claims,
    headers_get headers "Authorization" "" = "Bearer " ++ token /\
    decode_jwt_token token = Ok token_claims /\
    ((e = AttributeError /\ (is_dict data = false \/ is_dict token_claims = false))
     \/
     (e = TypeError /\
      exists body claims,
        data = JDict body /\ token_claims = JDict claims /\
        (is_str (dict_get claims "department" (JStr "")) = false
         \/
         exists a,
           evaluate_tbac_policy t (built_request body claims) token_claims = Ok a /\
           decision a = "ALLOW" /\
           searchable (dict_get body "index" (JStr "")) = false))).
Proof.
  split.
  - unfold handle_opensearch_query_post.
    destruct (startswith _ "Bearer ") eqn:Hbearer; simpl; [ | discriminate].
    destruct (decode_jwt_token _) as [token_claims | e'] eqn:Hdec; [ | discriminate].
    intros Hraise.
    exists (drop 7 (headers_get headers "Authorization" "")), token_claims.
    split; [exact (startswith_drop _ _ Hbearer) | split; [exact Hdec | ]].
    unfold answer_query in Hraise.
    destruct data as [ | | | | | | body];
      try (injection Hraise as <-; left; split; [reflexivity | now left]).
    destruct token_claims as [ | | | | | | claims];
      try (injection Hraise as <-; left; split; [reflexivity | now right]).
    cbn [py_get bind] in Hraise. fold (built_request body claims) in Hraise.
    right.
    destruct (evaluate_tbac_policy t (built_request body claims) (JDict claims))
      as [a | e'] eqn:Heval; cbn [bind] in Hraise.
    + destruct (String.eqb_spec (decision a) "ALLOW") as [Hallow | Hdeny];
        [ | discriminate Hraise].
      destruct (searchable (dict_get body "index" (JStr ""))) eqn:Hs.
      * destruct (simulate_returns _ (dict_get body "query" (JDict [])) claims Hs)
          as [r Hr].
        rewrite Hr in Hraise. discriminate Hraise.
      * rewrite (simulate_raises _ _ claims Hs) in Hraise. injection Hraise as <-.
        split; [reflexivity | ]. exists body, claims.
        split; [reflexivity | split; [reflexivity | right]].
        exists a. repeat split; assumption.
    + injection Hraise as <-.
      apply evaluate_raise_cases in Heval as [[Hnot _] | [claims' [Hsame [Hdep ->]]]];
        [discriminate Hnot | ].
      injection Hsame as <-.
      split; [reflexivity | ]. exists body, claims.
      split; [reflexivity | split; [reflexivity | now left]].
  - intros [token [token_claims [Hhead [Hdec Hcases]]]].
    rewrite (query_with_bearer t now _ _ _ Hhead), Hdec.
    destruct Hcases as [[-> [Hdata | Hclaims]] | [-> [body [claims [-> [-> Hwhy]]]]]].
    + unfold answer_query. destruct data; try reflexivity. discriminate Hdata.
    + unfold answer_query.
      destruct data; try reflexivity.
      destruct token_claims; try reflexivity. discriminate Hclaims.
    + unfold answer_query. cbn [py_get bind]. fold (built_request body claims).
      destruct Hwhy as [Hdep | [a [Heval [Hallow Hs]]]].
      * assert (Heval : evaluate_tbac_policy t (built_request body claims) (JDict claims)
                        = Raise TypeError).
        { apply evaluate_raise_cases. right. exists claims. repeat split. exact Hdep. }
        rewrite Heval. reflexivity.
      * rewrite Heval. cbn [bind]. rewrite Hallow. simpl.
        rewrite (simulate_raises _ _ claims Hs). reflexivity.
Qed.

(** X11. A token that is not made of exactly three dot-separated
    segments never reaches base64 or JSON: decoding raises [ValueError]
    for every runtime, and the endpoint answers DENY with the reason
    "Invalid token". *)
Theorem malformed_token_is_rejected (headers : list (string * string))
    (data : json) (token : string) :
  headers_get headers "Authorization" "" = "Bearer " ++ token ->
  List.length (split "." token) <> 3%nat ->
  decode_jwt_token token = Raise ValueError /\
  handle_opensearch_query_post t now headers data
  = Ok (Rejected "Invalid token format" "DENY" "Invalid token").
Proof.
  intros Hhead Hparts.
  assert (Hdec : decode_jwt_token token = Raise ValueError).
  { unfold decode_jwt_token.
    destruct (Nat.eqb_spec (List.length (split "." token)) 3) as [Heq | _];
      [contradiction | reflexivity]. }
  split; [exact Hdec | ].
  exact (query_with_bad_token t now headers data token ValueError Hhead Hdec).
Qed.

End QueryEndpointGrants.

(** ** Who the login endpoint lets in where *)

Section AccessMatrix.

Import LiveTest.

Context `{PyRuntime}.

(** The evaluator on the claims that the login endpoint writes into an
    access token. *)
Lemma evaluate_minted_claims (t : timing) (request : auth_request)
    (t_exp t_iat : Z) (email account_id : json) (user : user_info) :
  exists r,
    evaluate_tbac_policy t request
      (access_token_payload t_exp t_iat email account_id user) = Ok r /\
    policy_branches (dict_get (req_context request) "query_type" (JStr ""))
      (JStr (department user)) (JStr (access_level user)) account_id
      (req_context request)
    = (decision r, policies_applied r, reason r).
Proof.
  unfold access_token_payload.
  destruct (evaluate_returns t request
              [ ("sub", email);
                ("aud", JStr "opensearch-cedarling");
                ("iss", JStr "https://jans.example.com");
                ("exp", JInt (t_exp + 3600));
                ("iat", JInt t_iat);
                ("account_id", account_id);
                ("department", JStr (department user));
                ("access_level", JStr (access_level user));
                ("roles", JList (map JStr (roles user))) ]
              (department user) eq_refl) as [r Hr].
  exists r. split; [exact Hr | ].
  destruct (evaluate_result _ _ _ _ Hr) as [claims [Hsame [Hb _]]].
  injection Hsame as <-. exact Hb.
Qed.

(** X12. With the claims that the login endpoint mints, financial data
    goes to [charlie@finance.corp] alone, engineering data to
    [alice@engineering.corp] alone, and confidential data to nobody: no
    entry of the user table, nor the unknown user, has the access level
    [admin]. *)
Theorem minted_claims_access (t : timing) (request : auth_request)
    (t_exp t_iat : Z) (email account_id : json) (user : user_info) :
  get_user_info email = Ok user ->
  let query_type := dict_get (req_context request) "query_type" (JStr "") in
  exists r,
    evaluate_tbac_policy t request
      (access_token_payload t_exp t_iat email account_id user) = Ok r /\
    (query_type = JStr "financial" ->
     (decision r = "ALLOW" <-> email = JStr "charlie@finance.corp")) /\
    (query_type = JStr "engineering" ->
     (decision r = "ALLOW" <-> email = JStr "alice@engineering.corp")) /\
    (query_type = JStr "confidential" -> decision r = "DENY").
Proof.
  intros Huser query_type.
  destruct (evaluate_minted_claims t request t_exp t_iat email account_id user)
    as [r [Hr Hb]].
  exists r. split; [exact Hr | ].
  fold query_type in Hb.
  assert (Hcases :
            (exists s, email = JStr s /\
                       ((s = "alice@engineering.corp" /\ department user = "engineering"
                         /\ access_level user = "full")
                        \/ (s = "bob@sales.corp" /\ department user = "sales"
                            /\ access_level user = "limited")
                        \/ (s = "charlie@finance.corp" /\ department user = "finance"
                            /\ access_level user = "read_only")
                        \/ (s = "guest@external.com" /\ department user = "external"
                            /\ access_level user = "restricted")))
            \/ (email <> JStr "alice@engineering.corp"
                /\ email <> JStr "charlie@finance.corp"
                /\ department user = "unknown" /\ access_level user = "none")).
  { unfold get_user_info in Huser.
    destruct email as [ | | | | s | | ]; simpl in Huser;
      try discriminate Huser;
      try (injection Huser as <-; right; repeat split; discriminate).
    destruct (String.eqb_spec s "alice@engineering.corp") as [-> | Ha].
    { injection Huser as <-. left. eexists. split; [reflexivity | tauto]. }
    destruct (String.eqb_spec s "bob@sales.corp") as [-> | Hb'].
    { injection Huser as <-. left. eexists. split; [reflexivity | tauto]. }
    destruct (String.eqb_spec s "charlie@finance.corp") as [-> | Hc].
    { injection Huser as <-. left. eexists. split; [reflexivity | tauto]. }
    destruct (String.eqb_spec s "guest@external.com") as [-> | Hg].
    { injection Huser as <-. left. eexists. split; [reflexivity | tauto]. }
    injection Huser as <-. right.
    repeat split; try reflexivity; intros Heq; injection Heq as ->; contradiction. }
  destruct Hcases as [[s [-> [[-> [Hd Hl]] | [[-> [Hd Hl]] | [[-> [Hd Hl]] | [-> [Hd Hl]]]]]]]
                     | [Hna [Hnc [Hd Hl]]]];
    rewrite Hd, Hl in Hb;
    (split; [ | split]); intros Hq; rewrite Hq in Hb; cbn in Hb;
    injection Hb as Hdec _ _; rewrite <- Hdec;
    try reflexivity;
    (split; [intros Hx; try discriminate Hx; try reflexivity; tauto
            | intros Hx; try discriminate Hx; try reflexivity;
              try (exfalso; auto; fail)]).
Qed.

End AccessMatrix.

(** ** Minting and decoding *)

Section Minting.

Import LiveTest.

Context `{PyRuntime}.

(** X13. Minting and decoding compose: a token made by
    [create_jwt_token] decodes to its payload, provided the base64 text of
    the three segments holds no dot, the decoder gives back the payload
    bytes from the payload segment stripped of its padding and padded
    again by the decoder's rule, and UTF-8 and JSON read back the compact
    JSON text of the payload. *)
Theorem minted_token_decodes (header payload : json) :
  let text := json_dumps_compact payload in
  let header_encoded :=
    rstrip "=" (urlsafe_b64encode (str_encode (json_dumps_compact header))) in
  let payload_encoded := rstrip "=" (urlsafe_b64encode (str_encode text)) in
  let signature_encoded :=
    rstrip "="
      (urlsafe_b64encode
         (hmac_sha256 (str_encode "demo-secret")
            (str_encode (header_encoded ++ "." ++ payload_encoded)))) in
  has_char "." header_encoded = false ->
  has_char "." payload_encoded = false ->
  has_char "." signature_encoded = false ->
  urlsafe_b64decode
    (payload_encoded
     ++ repeat_char "=" (4 - String.length payload_encoded mod 4))
  = Ok (str_encode text) ->
  bytes_decode (str_encode text) = Ok text ->
  json_loads text = Ok payload ->
  decode_jwt_token (create_jwt_token header payload) = Ok payload.
Proof.
  intros text header_encoded payload_encoded signature_encoded
         Hh Hp Hs Hb64 Hutf Hjson.
  unfold create_jwt_token, decode_jwt_token.
  fold text. fold header_encoded. fold payload_encoded. fold signature_encoded.
  rewrite (split_token header_encoded payload_encoded signature_encoded Hh Hp Hs).
  cbn [List.length Nat.eqb negb nth].
  rewrite Hb64. cbn [bind]. rewrite Hutf. cbn [bind]. rewrite Hjson. reflexivity.
Qed.

(** X14. A minted token lives one hour at most: when the clock does not
    run backwards between the two readings, the [exp] claim of an access
    token and of an ID token is no later than its [iat] claim plus 3600,
    and exactly that when both readings fall in the same second. *)
Theorem minted_token_lifetime (clk : clock) (n : nat)
    (email account_id : json) (user : user_info) :
  clk n <= clk (S n) ->
  exists access ident e i,
    fst (generate_access_token clk n email account_id user)
    = create_jwt_token jwt_header (JDict access) /\
    fst (generate_id_token clk n email user)
    = create_jwt_token jwt_header (JDict ident) /\
    lookup "exp" access = Some (JInt e) /\ lookup "iat" access = Some (JInt i) /\
    lookup "exp" ident = Some (JInt e) /\ lookup "iat" ident = Some (JInt i) /\
    e <= i + 3600 /\
    (clk n = clk (S n) -> e = i + 3600).
Proof.
  intros Hmono. unfold generate_access_token, generate_id_token,
                  access_token_payload, id_token_payload. simpl fst.
  do 2 eexists. exists (clk n + 3600), (clk (S n)).
  split; [reflexivity | split; [reflexivity | ]].
  split; [reflexivity | split; [reflexivity | ]].
  split; [reflexivity | split; [reflexivity | ]].
  split.
  - apply Z.add_le_mono_r. exact Hmono.
  - intros ->. reflexivity.
Qed.

End Minting.

(** ** The simulated search *)

Section SimulatedSearch.

Import LiveTest.

(** X15. Whatever index is asked for, the simulated search lists at most
    two hits; every hit names the index of the request, and every
    [account_id] inside a hit is the [account_id] claim of the token - the
    query itself is never looked at. *)
Theorem simulated_hits (index_name query1 query2 token_claims result : json) :
  simulate_opensearch_query index_name query1 token_claims = Ok result ->
  simulate_opensearch_query index_name query2 token_claims = Ok result /\
  (List.length (result_hits result) <= 2)%nat /\
  forall hit,
    In hit (result_hits result) ->
    hit_field hit "_index" = Some index_name /\
    forall account,
      source_field hit "account_id" = Some account ->
      py_get token_claims "account_id" (JStr "") = Ok account.
Proof.
  unfold simulate_opensearch_query.
  destruct token_claims as [ | | | | | | claims]; simpl; try discriminate.
  destruct (str_in_value "customer" index_name) as [[ | ] | ]; simpl;
    try discriminate.
  { intros Hr. injection Hr as <-. split; [reflexivity | ].
    split; [simpl; auto | ].
    simpl. intros hit [<- | [<- | []]]; (split; [reflexivity | ]);
      intros account Hacc; simpl in Hacc; now injection Hacc as <-. }
  destruct (str_in_value "financial" index_name) as [[ | ] | ]; simpl;
    try discriminate.
  { intros Hr. injection Hr as <-. split; [reflexivity | ].
    split; [simpl; auto | ].
    simpl. intros hit [<- | []]; (split; [reflexivity | ]);
      intros account Hacc; simpl in Hacc; discriminate Hacc. }
  destruct (str_in_value "engineering" index_name) as [[ | ] | ]; simpl;
    try discriminate.
  { intros Hr. injection Hr as <-. split; [reflexivity | ].
    split; [simpl; auto | ].
    simpl. intros hit [<- | []]; (split; [reflexivity | ]);
      intros account Hacc; simpl in Hacc; discriminate Hacc. }
  destruct (str_in_value "public" index_name) as [[ | ] | ]; simpl;
    try discriminate.
  { intros Hr. injection Hr as <-. split; [reflexivity | ].
    split; [simpl; auto | ].
    simpl. intros hit [<- | []]; (split; [reflexivity | ]);
      intros account Hacc; simpl in Hacc; discriminate Hacc. }
  intros Hr. injection Hr as <-. split; [reflexivity | ].
  split; [simpl; auto | ].
  simpl. intros hit [].
Qed.

End SimulatedSearch.

(** ** More on the authorize and policy endpoints *)

Section AuthorizeMore.

Lemma startswith_app (x b : string) : startswith (x ++ b) x = true.
Proof.
  induction x as [| c x IH]; simpl.
  - reflexivity.
  - now rewrite Ascii.eqb_refl, IH.
Qed.

(** A string is part of every string written around it. *)
Lemma str_in_infix (x a b : string) : str_in x (a ++ x ++ b) = true.
Proof.
  induction a as [| c a IH].
  - simpl. destruct (x ++ b) eqn:Hxb.
    + simpl. destruct x; [reflexivity | discriminate Hxb].
    + simpl. rewrite <- Hxb. now rewrite startswith_app.
  - simpl. rewrite IH. apply orb_true_r.
Qed.

(** X16. The two authorize endpoints fail and decide alike on every
    body: both raise [AttributeError] for a body that is not a JSON
    object and [TypeError] for a principal that is neither a string, a
    list nor a dict; otherwise both answer, with the same decision. *)
Theorem authorize_endpoints_agree (now : string) (data : json) :
  match Production.handle_authorization now data,
        Deploy.authorize_data_access now data with
  | Ok r, Ok r' =>
      authz_decision r = authz_decision r' /\
      exists body,
        data = JDict body /\
        searchable (dict_get body "principal" (JStr "")) = true
  | Raise e, Raise e' =>
      e = e' /\
      ((e = AttributeError /\ is_dict data = false) \/
       (e = TypeError /\
        exists body,
          data = JDict body /\
          searchable (dict_get body "principal" (JStr "")) = false))
  | _, _ => False
  end.
Proof.
  unfold Production.handle_authorization, Deploy.authorize_data_access.
  destruct data as [ | | | | | | body]; cbn [py_get bind];
    try (split; [reflexivity | left; split; reflexivity]).
  unfold alice_may.
  destruct (dict_get body "principal" (JStr "")) eqn:Hp; cbn [str_in_value bind];
    try (split; [reflexivity | right; split; [reflexivity | ]];
         exists body; rewrite Hp; split; reflexivity);
    (split; [reflexivity | exists body; rewrite Hp; split; reflexivity]).
Qed.

(** X17. The test on the principal is a substring test: every principal
    that has [alice] anywhere inside it is allowed to read and to write,
    by both endpoints. *)
Theorem alice_anywhere_is_allowed (now : string) (body : dict)
    (before after : string) :
  dict_get body "principal" (JStr "") = JStr (before ++ "alice" ++ after) ->
  dict_get body "action" (JStr "") = JStr "read" \/
  dict_get body "action" (JStr "") = JStr "write" ->
  exists r r',
    Production.handle_authorization now (JDict body) = Ok r /\
    Deploy.authorize_data_access now (JDict body) = Ok r' /\
    authz_decision r = "ALLOW" /\ authz_decision r' = "ALLOW".
Proof.
  intros Hp Haction.
  unfold Production.handle_authorization, Deploy.authorize_data_access.
  cbn [py_get bind]. rewrite Hp, alice_may_string, str_in_infix.
  apply read_or_write in Haction. rewrite Haction.
  cbn [bind andb]. do 2 eexists. repeat split.
Qed.

Lemma to_int_not_nil (n : Z) :
  Z.to_int n <> Decimal.Pos Decimal.Nil /\ Z.to_int n <> Decimal.Neg Decimal.Nil.
Proof.
  split; intros Hnil; pose proof (f_equal Z.of_int Hnil) as Hzero;
    rewrite DecimalZ.of_to in Hzero; simpl in Hzero; subst n; discriminate Hnil.
Qed.

Lemma str_of_int_inj (n m : Z) : str_of_int n = str_of_int m -> n = m.
Proof.
  unfold str_of_int. intros Heq.
  apply (f_equal NilZero.int_of_string) in Heq.
  destruct (to_int_not_nil n) as [Hn1 Hn2].
  destruct (to_int_not_nil m) as [Hm1 Hm2].
  rewrite (NilZero.isi _ Hn1 Hn2), (NilZero.isi _ Hm1 Hm2) in Heq.
  injection Heq as Heq. now apply DecimalZ.to_int_inj.
Qed.

Lemma append_inj_l (p a b : string) : p ++ a = p ++ b -> a = b.
Proof.
  induction p as [| c p IH]; simpl; intros Heq.
  - exact Heq.
  - injection Heq as Heq. exact (IH Heq).
Qed.

(** X18. The identifier of a created policy or schema is the second of
    its creation and nothing else, on both servers: two creations, on the
    same server or one on each, get the same identifier exactly when they
    fall in the same second, whatever their names and bodies.  The answers
    of the two servers are not the same: those of the production server
    carry [cedarling_engine], those of the other server do not. *)
Theorem created_ids_collide_within_a_second (s1 s2 : Z) (now1 now2 : string)
    (body1 body2 : dict) :
  exists p1 p2 c1 c2 q2 d2,
    Production.handle_policy_creation s1 now1 (JDict body1) = Ok p1 /\
    Production.handle_policy_creation s2 now2 (JDict body2) = Ok p2 /\
    ProductionRoutes.handle_schema_creation s1 now1 (JDict body1) = Ok c1 /\
    ProductionRoutes.handle_schema_creation s2 now2 (JDict body2) = Ok c2 /\
    Deploy.create_policy s2 now2 (JDict body2) = Ok q2 /\
    DeployRoutes.create_schema s2 now2 (JDict body2) = Ok d2 /\
    (policy_id p1 = policy_id p2 <-> s1 = s2) /\
    (schema_id c1 = schema_id c2 <-> s1 = s2) /\
    (policy_id p1 = policy_id q2 <-> s1 = s2) /\
    (schema_id c1 = schema_id d2 <-> s1 = s2) /\
    policy_cedarling_engine p2 = Some "embedded-uniffi" /\
    schema_cedarling_engine c2 = Some "embedded-uniffi" /\
    policy_cedarling_engine q2 = None /\
    schema_cedarling_engine d2 = None.
Proof.
  do 6 eexists.
  split; [reflexivity | split; [reflexivity | ]].
  split; [reflexivity | split; [reflexivity | ]].
  split; [reflexivity | split; [reflexivity | ]].
  cbn [policy_id schema_id policy_cedarling_engine schema_cedarling_engine].
  assert (Hid : forall prefix, prefix ++ str_of_int s1 = prefix ++ str_of_int s2 <-> s1 = s2).
  { intros prefix. split; [intros Heq | intros ->; reflexivity].
    apply append_inj_l in Heq. exact (str_of_int_inj _ _ Heq). }
  split; [apply Hid | split; [apply Hid | ]].
  split; [apply Hid | split; [apply Hid | ]].
  split; [reflexivity | split; [reflexivity | split; reflexivity]].
Qed.

End AuthorizeMore.

(** ** Routing *)

Section Routing.

Import LiveTest.

Context `{PyRuntime}.

(** An empty body, and a body on which [json.loads] raises
    [JSONDecodeError], are read as [{}]. *)
Lemma read_body_fallback (post_data : string) :
  post_data = "" \/ json_loads post_data = Raise JSONDecodeError ->
  LiveTestRoutes.read_body post_data = Ok (JDict []).
Proof.
  unfold LiveTestRoutes.read_body. intros [-> | Hbad].
  - reflexivity.
  - destruct (String.eqb post_data ""); [reflexivity | now rewrite Hbad].
Qed.

(** Any other exception of [json.loads] is not caught: it leaves
    [do_POST] before a route is chosen. *)
Lemma read_body_propagates (post_data : string) (e : exc) :
  post_data <> "" -> e <> JSONDecodeError ->
  json_loads post_data = Raise e ->
  LiveTestRoutes.read_body post_data = Raise e /\
  forall clk t now headers path,
    LiveTestRoutes.do_POST clk t now headers path post_data = Raise e.
Proof.
  intros Hnonempty Hother Hbad.
  assert (Hread : LiveTestRoutes.read_body post_data = Raise e).
  { unfold LiveTestRoutes.read_body.
    destruct (String.eqb_spec post_data "") as [Hempty | _]; [contradiction | ].
    rewrite Hbad. destruct e; try reflexivity. now elim Hother. }
  split; [exact Hread | ].
  intros clk t now headers path. unfold LiveTestRoutes.do_POST.
  now rewrite Hread.
Qed.

(** Only the root is served on GET: the four other routes that [do_GET]
    names end in methods the class does not have. *)
Lemma get_routes (path : string) :
  match LiveTestRoutes.do_GET path with
  | Ok LiveTestRoutes.DemoPage => path = "/"
  | Ok (LiveTestRoutes.GetError code) =>
      code = 404 /\
      ~ In path ["/"; "/login"; "/api/login"; "/api/query"; "/api/logout"]
  | Raise e =>
      e = AttributeError /\
      In path ["/login"; "/api/login"; "/api/query"; "/api/logout"]
  end.
Proof.
  unfold LiveTestRoutes.do_GET.
  destruct (String.eqb_spec path "/") as [-> | H0]; [reflexivity | ].
  destruct (String.eqb_spec path "/login") as [-> | H1]; [simpl; tauto | ].
  destruct (String.eqb_spec path "/api/login") as [-> | H2]; [simpl; tauto | ].
  destruct (String.eqb_spec path "/api/query") as [-> | H3]; [simpl; tauto | ].
  destruct (String.eqb_spec path "/api/logout") as [-> | H4]; [simpl; tauto | ].
  split; [reflexivity | ]. simpl.
  intros [Heq | [Heq | [Heq | [Heq | [Heq | []]]]]]; symmetry in Heq; contradiction.
Qed.

(** X19. A login POST needs no body: with an empty body, or one on which
    [json.loads] raises [JSONDecodeError], the server reads [{}] and logs
    in the unknown user with the empty string as email and as account,
    and mints both tokens. *)
Theorem login_without_body (clk : clock) (t : timing) (now : string)
    (headers : list (string * string)) (post_data : string) :
  post_data = "" \/ json_loads post_data = Raise JSONDecodeError ->
  exists resp,
    LiveTestRoutes.do_POST clk t now headers "/api/login" post_data
    = Ok (LiveTestRoutes.LoginAnswer resp) /\
    success resp = true /\
    session_email (login_session resp) = JStr "" /\
    session_account_id (login_session resp) = JStr "" /\
    session_department (login_session resp) = "unknown" /\
    session_access_level (login_session resp) = "none" /\
    access_token (login_session resp)
    = create_jwt_token jwt_header
        (access_token_payload (clk 0%nat) (clk 1%nat) (JStr "") (JStr "") unknown_user).
Proof.
  intros Hbody. unfold LiveTestRoutes.do_POST.
  rewrite (read_body_fallback post_data Hbody). cbn [bind].
  eexists. split; [reflexivity | ]. repeat split.
Qed.

(** X20. The plugin server answers a POST without a usable body too:
    with an empty body, or one on which [json.loads] raises
    [JSONDecodeError], the authorize route answers DENY, and the schema
    and the policy routes answer "created" with the name null and the
    engine "embedded-uniffi". *)
Theorem plugin_posts_without_body (seconds : Z) (now post_data : string) :
  post_data = "" \/ json_loads post_data = Raise JSONDecodeError ->
  exists a c p,
    ProductionRoutes.do_POST seconds now
      "/_plugins/_cedarling/data-policies/authorize" post_data
    = Ok (ProductionRoutes.AuthorizeAnswer a) /\
    authz_decision a = "DENY" /\
    ProductionRoutes.do_POST seconds now
      "/_plugins/_cedarling/data-policies/schema" post_data
    = Ok (ProductionRoutes.SchemaAnswer c) /\
    schema_name c = JNull /\ schema_status c = "created" /\
    schema_cedarling_engine c = Some "embedded-uniffi" /\
    ProductionRoutes.do_POST seconds now
      "/_plugins/_cedarling/data-policies/policy" post_data
    = Ok (ProductionRoutes.PolicyAnswer p) /\
    policy_name p = JNull /\ policy_status p = "created" /\
    policy_cedarling_engine p = Some "embedded-uniffi".
Proof.
  intros Hbody. unfold ProductionRoutes.do_POST.
  rewrite (read_body_fallback post_data Hbody). cbn [bind].
  do 3 eexists.
  split; [reflexivity | split; [reflexivity | ]].
  split; [reflexivity | split; [reflexivity | split; [reflexivity | ]]].
  split; [reflexivity | ].
  split; [reflexivity | split; [reflexivity | split; reflexivity]].
Qed.

(** A POST to a path that is not a route is answered 404 once the body
    has been read, and the query route hands the request to the query
    handler unchanged. *)
Lemma post_routes (clk : clock) (t : timing) (now : string)
    (headers : list (string * string)) (path post_data : string) (data : json) :
  LiveTestRoutes.read_body post_data = Ok data ->
  (path <> "/api/login" -> path <> "/api/query" ->
   LiveTestRoutes.do_POST clk t now headers path post_data
   = Ok (LiveTestRoutes.PostError 404))
  /\
  (forall resp,
     LiveTestRoutes.do_POST clk t now headers "/api/query" post_data
     = Ok (LiveTestRoutes.QueryAnswer resp)
     <-> handle_opensearch_query_post t now headers data = Ok resp).
Proof.
  intros Hbody. unfold LiveTestRoutes.do_POST. rewrite Hbody. cbn [bind].
  split.
  - intros Hlogin Hquery.
    destruct (String.eqb_spec path "/api/login") as [Heq | _]; [contradiction | ].
    destruct (String.eqb_spec path "/api/query") as [Heq | _]; [contradiction | ].
    reflexivity.
  - intros resp. simpl.
    destruct (handle_opensearch_query_post t now headers data) as [r | e]; simpl.
    + split; intros Hr; now injection Hr as <-.
    + split; discriminate.
Qed.

End Routing.

(** ** The further properties on example requests *)

Section MoreRuns.

Import LiveTest Examples MoreExamples.

(** Alice's customer query comes back with results and an ALLOW. *)
Lemma results_only_when_allowed_witness :
  exists a r meta,
    run_query (bearer alice_token) customer_query = Ok (Evaluated a (Some r) meta) /\
    decision a = "ALLOW".
Proof.
  destruct (run_query (bearer alice_token) customer_query) as [resp | e] eqn:Hrun.
  - pose proof (@results_only_when_allowed Fixture.runtime a_timing a_stamp
                  (bearer alice_token) customer_query resp Hrun) as Hres.
    vm_compute in Hrun. injection Hrun as <-.
    do 3 eexists. split; [reflexivity | ].
    apply Hres. discriminate.
  - vm_compute in Hrun. discriminate Hrun.
Defined.

(** The ALLOW for Alice's query points back at her token. *)
Lemma allow_needs_decoded_token_witness :
  exists token claims body,
    headers_get (bearer alice_token) "Authorization" "" = "Bearer " ++ token /\
    decode token = Ok (JDict claims) /\ customer_query = JDict body.
Proof.
  destruct (run_query (bearer alice_token) customer_query) as [resp | e] eqn:Hrun.
  - apply (@allow_needs_decoded_token Fixture.runtime a_timing a_stamp
             (bearer alice_token) customer_query resp Hrun).
    vm_compute in Hrun. injection Hrun as <-. reflexivity.
  - vm_compute in Hrun. discriminate Hrun.
Defined.

(** The same query under another [user_context] gets the same answer. *)
Lemma body_is_read_through_index_and_query_witness :
  run_query (bearer alice_token) (JDict customer_body) =
  run_query (bearer alice_token) (JDict other_context_body).
Proof.
  apply (@body_is_read_through_index_and_query Fixture.runtime a_timing a_stamp
           (bearer alice_token) customer_body other_context_body);
    reflexivity.
Defined.

(** Alice's query on the application logs is denied by default. *)
Lemma general_query_is_denied_witness :
  exists a meta,
    run_query (bearer alice_token) (JDict log_body) = Ok (Evaluated a None meta) /\
    decision a = "DENY" /\ reason a = "Default deny".
Proof.
  destruct (@general_query_is_denied Fixture.runtime a_timing a_stamp
              (bearer alice_token) log_body alice_token (JDict alice_claims)
              ltac:(reflexivity) ltac:(vm_compute; reflexivity)
              ltac:(vm_compute; reflexivity))
    as [Hevery Hsome].
  destruct (Hsome alice_claims "engineering" ltac:(reflexivity) ltac:(reflexivity))
    as [resp Hresp].
  destruct (Hevery resp Hresp) as [a [meta [-> [Hdeny [_ Hwhy]]]]].
  exists a, meta. split; [exact Hresp | split; assumption].
Defined.

(** A token without signature and without claims reads the public
    data. *)
Lemma public_query_is_allowed_witness :
  exists a r meta,
    run_query (bearer unsigned_empty_token) (JDict public_body)
    = Ok (Evaluated a (Some r) meta) /\
    decision a = "ALLOW".
Proof.
  destruct (@public_query_is_allowed Fixture.runtime a_timing a_stamp
              (bearer unsigned_empty_token) public_body [] unsigned_empty_token
              "" "public-data"
              ltac:(reflexivity) ltac:(vm_compute; reflexivity)
              ltac:(vm_compute; reflexivity) ltac:(reflexivity) ltac:(reflexivity))
    as [a [r [meta [Hrun [Hallow _]]]]].
  exists a, r, meta. split; assumption.
Defined.

(** Alice's token for [acct_1] is allowed to query [acct_2]. *)
Lemma customer_query_is_allowed_witness :
  exists a r meta,
    run_query (bearer alice_token) foreign_account_query
    = Ok (Evaluated a (Some r) meta) /\
    decision a = "ALLOW" /\ account_match a = true.
Proof.
  destruct (@customer_query_is_allowed Fixture.runtime a_timing a_stamp
              (bearer alice_token)
              match foreign_account_query with JDict body => body | _ => [] end
              alice_claims alice_token "acct_1" "engineering" "customer-data"
              ltac:(reflexivity) ltac:(vm_compute; reflexivity)
              ltac:(vm_compute; reflexivity) ltac:(reflexivity)
              ltac:(reflexivity) ltac:(reflexivity))
    as [a [r [meta [Hrun [Hallow [_ Hmatch]]]]]].
  exists a, r, meta. split; [exact Hrun | split; assumption].
Defined.

(** A token of two segments. *)
Lemma malformed_token_is_rejected_witness :
  run_query (bearer "e30.e30") public_query
  = Ok (Rejected "Invalid token format" "DENY" "Invalid token").
Proof.
  apply (@malformed_token_is_rejected Fixture.runtime a_timing a_stamp
           (bearer "e30.e30") public_query "e30.e30").
  - reflexivity.
  - vm_compute. discriminate.
Defined.

(** Charlie reads the financial reports. *)
Lemma minted_claims_access_witness :
  exists r,
    @evaluate_tbac_policy a_timing financial_request
      (access_token_payload 1717583400 1717583400
         (JStr "charlie@finance.corp") (JStr "acct_7")
         {| name := "Charlie Brown"; department := "finance";
            access_level := "read_only";
            roles := ["financial_analyst"; "report_reader"] |}) = Ok r /\
    decision r = "ALLOW".
Proof.
  destruct (minted_claims_access a_timing financial_request 1717583400 1717583400
              (JStr "charlie@finance.corp") (JStr "acct_7")
              {| name := "Charlie Brown"; department := "finance";
                 access_level := "read_only";
                 roles := ["financial_analyst"; "report_reader"] |}
              ltac:(reflexivity))
    as [r [Hr [Hfin _]]].
  exists r. split; [exact Hr | ].
  apply (Hfin ltac:(reflexivity)). reflexivity.
Defined.

(** The token minted for Alice decodes to her claims. *)
Lemma minted_token_decodes_witness :
  decode (@create_jwt_token Fixture.runtime jwt_header (JDict alice_claims))
  = Ok (JDict alice_claims).
Proof.
  apply (@minted_token_decodes Fixture.runtime jwt_header (JDict alice_claims));
    vm_compute; reflexivity.
Defined.

(** A clock that ticks between the two readings. *)
Lemma minted_token_lifetime_witness :
  exists access e i,
    fst (@generate_access_token Fixture.runtime a_clock 0
           (JStr "alice@engineering.corp") (JStr "acct_1") unknown_user)
    = @create_jwt_token Fixture.runtime jwt_header (JDict access) /\
    lookup "exp" access = Some (JInt e) /\ lookup "iat" access = Some (JInt i) /\
    e <= i + 3600.
Proof.
  destruct (@minted_token_lifetime Fixture.runtime a_clock 0
              (JStr "alice@engineering.corp") (JStr "acct_1") unknown_user
              ltac:(vm_compute; discriminate))
    as [access [ident [e [i [Ha [_ [He [Hi [_ [_ [Hle _]]]]]]]]]]].
  exists access, e, i.
  split; [exact Ha | split; [exact He | split; [exact Hi | exact Hle]]].
Defined.

(** The customer index under Alice's claims. *)
Lemma simulated_hits_witness :
  exists result,
    simulate_opensearch_query (JStr "customer-data") JNull (JDict alice_claims)
    = Ok result /\
    forall hit, In hit (result_hits result) ->
                source_field hit "account_id" = Some (JStr "acct_1").
Proof.
  destruct (simulate_opensearch_query (JStr "customer-data") JNull (JDict alice_claims))
    as [result | e] eqn:Hsim.
  - exists result. split; [reflexivity | ].
    pose proof (simulated_hits (JStr "customer-data") JNull JNull
                  (JDict alice_claims) result Hsim) as [_ [_ Hhits]].
    vm_compute in Hsim. injection Hsim as <-.
    intros hit Hin. simpl in Hin.
    destruct Hin as [<- | [<- | []]]; reflexivity.
  - vm_compute in Hsim. discriminate Hsim.
Defined.

(** Malice may read. *)
Lemma alice_anywhere_is_allowed_witness :
  exists r,
    Production.handle_authorization a_stamp
      (JDict [("principal", JStr "user:malice@evil.example"); ("action", JStr "read")])
    = Ok r /\
    authz_decision r = "ALLOW".
Proof.
  destruct (alice_anywhere_is_allowed a_stamp
              [("principal", JStr "user:malice@evil.example"); ("action", JStr "read")]
              "user:m" "@evil.example" ltac:(reflexivity) ltac:(left; reflexivity))
    as [r [r' [Hr [_ [Hallow _]]]]].
  exists r. split; assumption.
Defined.

(** A login POST with a body that is not JSON. *)
Lemma login_without_body_witness :
  exists resp,
    @LiveTestRoutes.do_POST Fixture.runtime a_clock a_timing a_stamp []
      "/api/login" "email=alice"
    = Ok (LiveTestRoutes.LoginAnswer resp) /\
    success resp = true /\ session_department (login_session resp) = "unknown".
Proof.
  destruct (@login_without_body Fixture.runtime a_clock a_timing a_stamp []
              "email=alice" ltac:(right; vm_compute; reflexivity))
    as [resp [Hresp [Hok [_ [_ [Hdep _]]]]]].
  exists resp. split; [exact Hresp | split; assumption].
Defined.

(** An authorize POST with an empty body. *)
Lemma plugin_posts_without_body_witness :
  exists a,
    @ProductionRoutes.do_POST Fixture.runtime 1717583400 a_stamp
      "/_plugins/_cedarling/data-policies/authorize" ""
    = Ok (ProductionRoutes.AuthorizeAnswer a) /\
    authz_decision a = "DENY".
Proof.
  destruct (@plugin_posts_without_body Fixture.runtime 1717583400 a_stamp ""
              ltac:(left; reflexivity))
    as [a [c [p [Ha [Hdeny _]]]]].
  exists a. split; assumption.
Defined.

(** A body that is not JSON is read as [{}]; a body of 4301 digits is
    JSON that CPython refuses to convert, with a [ValueError] that is no
    [JSONDecodeError]: it leaves [do_POST] on every path. *)
Lemma oversized_integer_body_raises :
  @LiveTestRoutes.read_body Fixture.runtime "email=alice" = Ok (JDict []) /\
  forall path,
    @LiveTestRoutes.do_POST Fixture.runtime a_clock a_timing a_stamp []
      path (repeat_char "1" 4301)
    = Raise ValueError.
Proof.
  split; [vm_compute; reflexivity | ].
  intros path.
  apply (@read_body_propagates Fixture.runtime (repeat_char "1" 4301) ValueError).
  - intros Hempty. vm_compute in Hempty. discriminate Hempty.
  - discriminate.
  - vm_compute. reflexivity.
Qed.

End MoreRuns.
